(** * YouTube channel analyzer: metrics aggregation and normalization

    A shallow embedding of the data-transformation core of
    [youtube_analyzer.py] and of the request validation of [app.py].

    Conventions.
    - A Python [str] is a Rocq [string] holding its UTF-8 bytes.  Ordering
      ([<], [>]), [in], [split], [startswith] and [replace] with ASCII
      arguments act on the bytes exactly as Python acts on the code points.
    - A dictionary read with [.get(key, default)] is a record whose field is
      an [option]; [None] is the absent key.
    - A raised exception is [None] in the option monad; the [try]/[except]
      that catches it is the [match] on the result.
    - The numeric counts the provider sends as decimal strings are taken as
      the integers they denote ([Z]).
    - Python's true division of two integers is the exact rational
      quotient ([Q]) and raises on a zero divisor.  The [float] that
      Python stores for such a quotient is its binary64 rounding,
      [Binary64.of_quotient]; the order between the mean of the views and
      their extrema is stated on that stored value. *)

From Stdlib Require Import ZArith QArith Qround Qabs List String Ascii Bool.
From Stdlib Require Import Lia Lqa Permutation Sorted.
Import ListNotations.

Local Open Scope string_scope.
Local Open Scope Z_scope.

(* ================================================================== *)
(** ** Python built-ins used by the program *)
(* ================================================================== *)

Module Py.

(** The option monad: [None] is a raised exception. *)
Definition bind {A B : Type} (m : option A) (k : A -> option B) : option B :=
  match m with
  | Some a => k a
  | None => None
  end.

(** [if s:] on a string. *)
Definition truthy (s : string) : bool :=
  match s with
  | EmptyString => false
  | String _ _ => true
  end.

(** [if x:] on an optional string ([None] and [''] are falsy). *)
Definition truthy_opt (o : option string) : bool :=
  match o with
  | Some s => truthy s
  | None => false
  end.

(** [s.startswith(p)]. *)
Fixpoint startswith (p s : string) : bool :=
  match p, s with
  | EmptyString, _ => true
  | String a p', String b s' => Ascii.eqb a b && startswith p' s'
  | String _ _, EmptyString => false
  end.

(** [needle in s]. *)
Fixpoint contains (needle s : string) : bool :=
  startswith needle s ||
  match s with
  | EmptyString => false
  | String _ s' => contains needle s'
  end.

(** [s.split(sep)] for a one-character separator: always at least one
    piece. *)
Fixpoint split (sep : ascii) (s : string) : list string :=
  match s with
  | EmptyString => [EmptyString]
  | String a s' =>
      if Ascii.eqb a sep then EmptyString :: split sep s'
      else match split sep s' with
           | piece :: rest => String a piece :: rest
           | [] => [String a EmptyString]
           end
  end.

(** [s.split(sep, 1)]: cut at the first separator only. *)
Fixpoint split1 (sep : ascii) (s : string) : list string :=
  match s with
  | EmptyString => [EmptyString]
  | String a s' =>
      if Ascii.eqb a sep then [EmptyString; s']
      else match split1 sep s' with
           | piece :: rest => String a piece :: rest
           | [] => [String a EmptyString]
           end
  end.

(** [xs[i]]: [None] is IndexError. *)
Definition index {A : Type} (xs : list A) (i : nat) : option A :=
  nth_error xs i.

(** [s.replace(a, b)] for single characters. *)
Fixpoint replace (a b : ascii) (s : string) : string :=
  match s with
  | EmptyString => EmptyString
  | String c s' => String (if Ascii.eqb c a then b else c) (replace a b s')
  end.

(** [sum(xs)]: left to right from 0. *)
Definition sum (xs : list Z) : Z := fold_left Z.add xs 0.

(** [max(xs)] and [min(xs)] of a non-empty sequence ([None] is the
    ValueError on an empty one). *)
Definition max (xs : list Z) : option Z :=
  match xs with
  | [] => None
  | x :: rest => Some (fold_left Z.max rest x)
  end.

Definition min (xs : list Z) : option Z :=
  match xs with
  | [] => None
  | x :: rest => Some (fold_left Z.min rest x)
  end.

(** [a / b] on integers: the exact quotient, and ZeroDivisionError
    ([None]) when [b] is 0.  The float stored for the quotient is its
    rounding, [Binary64.of_quotient]. *)
Definition true_div (a b : Z) : option Q :=
  if b =? 0 then None else Some (inject_Z a / inject_Z b)%Q.

(** A [dict]: keys in insertion order, at most one entry per key. *)
Definition dict (V : Type) : Type := list (string * V).

(** [d[k] = v]: an existing key keeps its position and takes the new
    value, a new key goes to the end. *)
Fixpoint setitem {V : Type} (k : string) (v : V) (d : dict V) : dict V :=
  match d with
  | [] => [(k, v)]
  | (k', v') :: rest =>
      if String.eqb k' k then (k', v) :: rest
      else (k', v') :: setitem k v rest
  end.

(** [d.get(k)]. *)
Fixpoint get {V : Type} (k : string) (d : dict V) : option V :=
  match d with
  | [] => None
  | (k', v) :: rest => if String.eqb k' k then Some v else get k rest
  end.

(** [list(d.keys())]. *)
Definition keys {V : Type} (d : dict V) : list string := map fst d.

(** [s.endswith(p)]. *)
Fixpoint endswith (p s : string) : bool :=
  String.eqb p s ||
  match s with
  | EmptyString => false
  | String _ s' => endswith p s'
  end.

(** [s.strip(c)] for one character [c]. *)
Fixpoint lstrip (c : ascii) (s : string) : string :=
  match s with
  | EmptyString => EmptyString
  | String a s' => if Ascii.eqb a c then lstrip c s' else s
  end.

Fixpoint rstrip (c : ascii) (s : string) : string :=
  match s with
  | EmptyString => EmptyString
  | String a s' =>
      match rstrip c s' with
      | EmptyString => if Ascii.eqb a c then EmptyString
                       else String a EmptyString
      | r => String a r
      end
  end.

Definition strip (c : ascii) (s : string) : string := rstrip c (lstrip c s).

(** [x in xs] and [xs.index(x)] on a list of strings. *)
Definition mem (x : string) (xs : list string) : bool :=
  existsb (String.eqb x) xs.

Fixpoint list_index (x : string) (xs : list string) : option nat :=
  match xs with
  | [] => None
  | y :: rest =>
      if String.eqb y x then Some O
      else match list_index x rest with
           | Some i => Some (S i)
           | None => None
           end
  end.

(** [min(max(lo, n), hi)]. *)
Definition clamp (lo hi n : Z) : Z := Z.min (Z.max lo n) hi.

End Py.

(* ================================================================== *)
(** ** The value of a Python [float] *)
(* ================================================================== *)

(** CPython's [int / int] returns the binary64 number nearest to the
    exact quotient, a tie going to the even significand, and raises
    OverflowError when that number is beyond the float range.  A float
    is represented here by the rational it denotes. *)
Module Binary64.

(** [floor (log2 q)] of a positive rational. *)
Definition ilog2 (q : Q) : Z :=
  if Qle_bool 1 q then Z.log2 (Qfloor q)
  else - Z.log2_up (Qceiling (/ q)).

(** [q / 2^k]. *)
Definition scale (q : Q) (k : Z) : Q :=
  if 0 <? k then (q / inject_Z (2 ^ k))%Q
  else (q * inject_Z (2 ^ (- k)))%Q.

(** [n * 2^k]. *)
Definition unscale (n k : Z) : Q :=
  if 0 <? k then inject_Z (n * 2 ^ k)
  else (inject_Z n / inject_Z (2 ^ (- k)))%Q.

(** The integer nearest to [s], a tie going to the even one. *)
Definition nearest_even (s : Q) : Z :=
  let f := Qfloor s in
  match (s - inject_Z f ?= 1 # 2)%Q with
  | Lt => f
  | Gt => f + 1
  | Eq => if Z.even f then f else f + 1
  end.

(** A positive rational rounded to 53 significant bits; below the
    smallest normal exponent, -1022, the spacing stays 2^-1074. *)
Definition round_pos (q : Q) : Q :=
  let e := Z.max (ilog2 q) (-1022) in
  let k := e - 52 in
  unscale (nearest_even (scale q k)) k.

Definition round_nearest (q : Q) : Q :=
  match (q ?= 0)%Q with
  | Gt => round_pos q
  | Lt => (- round_pos (- q))%Q
  | Eq => 0%Q
  end.

(** The float stored for the exact quotient [q]: [None] is the
    OverflowError of a result of magnitude 2^1024 or more. *)
Definition of_quotient (q : Q) : option Q :=
  let f := round_nearest q in
  if Qle_bool (inject_Z (2 ^ 1024)) (Qabs f) then None else Some f.

End Binary64.

Notation "x <- m ;; k" := (Py.bind m (fun x => k))
  (at level 61, m at next level, right associativity).

(** The library functions the program calls.  Their behaviour on arbitrary
    text depends on the interpreter's version and Unicode tables, so the
    program is written against this interface; [CPython.lib] below
    implements it.
    - [py_int s] is [int(s)]; [None] is ValueError.
    - [strptime s] is [datetime.datetime.strptime(s, "%Y-%m-%d")] as
      (year, month, day), the time of day being midnight; [None] is
      ValueError.
    - [urlparse_query url] is [urlparse(url).query]; [None] is ValueError.
    - [parse_qs query] is [parse_qs(query)]: each name with its values.
    - [unquote s] is [unquote(s)]. *)
Class PyLib : Type := {
  py_int : string -> option Z;
  strptime : string -> option (Z * Z * Z);
  urlparse_query : string -> option string;
  parse_qs : string -> Py.dict (list string);
  unquote : string -> string
}.

(* ================================================================== *)
(** ** The library functions as CPython 3 implements them *)
(* ================================================================== *)

(** A model of the interface on byte strings.  It follows CPython's
    [int], [_strptime] and [urllib.parse] on ASCII text.  Left out:
    decimal digits and white space outside ASCII, the 4300-digit limit
    of [int], the NFKC and bracketed-host checks of [urlsplit], and the
    U+FFFD substitution of [unquote] for escapes that do not decode as
    UTF-8. *)
Module CPython.

Definition code (a : ascii) : Z := Z.of_N (N_of_ascii a).

Definition between (lo hi : Z) (a : ascii) : bool :=
  (lo <=? code a) && (code a <=? hi).

(** ASCII white space: tab to carriage return, the four separators
    0x1c-0x1f and the space. *)
Definition is_space (a : ascii) : bool :=
  between 9 13 a || between 28 32 a.

Definition digit (a : ascii) : option Z :=
  if between 48 57 a then Some (code a - 48) else None.

Fixpoint lstrip (f : ascii -> bool) (s : string) : string :=
  match s with
  | EmptyString => EmptyString
  | String a s' => if f a then lstrip f s' else s
  end.

Fixpoint rstrip (f : ascii -> bool) (s : string) : string :=
  match s with
  | EmptyString => EmptyString
  | String a s' =>
      match rstrip f s' with
      | EmptyString => if f a then EmptyString else String a EmptyString
      | r => String a r
      end
  end.

(** Decimal digits with single underscores between them. *)
Fixpoint int_digits (s : string) (acc : Z) (after_digit : bool) : option Z :=
  match s with
  | EmptyString => if after_digit then Some acc else None
  | String a s' =>
      match digit a with
      | Some d => int_digits s' (10 * acc + d) true
      | None =>
          if Ascii.eqb a "_" && after_digit then int_digits s' acc false
          else None
      end
  end.

(** [int(s)]: optional white space, an optional sign, the digits. *)
Definition int (s : string) : option Z :=
  match rstrip is_space (lstrip is_space s) with
  | String "-" body => n <- int_digits body 0 false ;; Some (- n)
  | String "+" body => int_digits body 0 false
  | body => int_digits body 0 false
  end.

Definition is_leap (year : Z) : bool :=
  ((year mod 4 =? 0) && negb (year mod 100 =? 0)) || (year mod 400 =? 0).

Definition days_in_month (year month : Z) : Z :=
  if month =? 2 then (if is_leap year then 29 else 28)
  else if (month =? 4) || (month =? 6) || (month =? 9) || (month =? 11)
       then 30
       else 31.

(** [datetime.date(year, month, day)] accepts the triple. *)
Definition valid_date (year month day : Z) : bool :=
  (1 <=? year) && (year <=? 9999) &&
  (1 <=? month) && (month <=? 12) &&
  (1 <=? day) && (day <=? days_in_month year month).

(** The month directive: [1[0-2]|0[1-9]|[1-9]], then the hyphen. *)
Definition strptime_month (s : string) : option (Z * string) :=
  match s with
  | String a (String "-" rest) =>
      if between 49 57 a then Some (code a - 48, rest) else None
  | String a (String b (String "-" rest)) =>
      if Ascii.eqb a "1" && between 48 50 b then Some (10 + (code b - 48), rest)
      else if Ascii.eqb a "0" && between 49 57 b then Some (code b - 48, rest)
      else None
  | _ => None
  end.

(** The day directive: [3[0-1]|[1-2]\d|0[1-9]|[1-9]| [1-9]], after which
    nothing may remain. *)
Definition strptime_day (s : string) : option Z :=
  match s with
  | String a EmptyString =>
      if between 49 57 a then Some (code a - 48) else None
  | String a (String b EmptyString) =>
      if Ascii.eqb a "3" && between 48 49 b then Some (30 + (code b - 48))
      else if between 49 50 a && between 48 57 b
           then Some (10 * (code a - 48) + (code b - 48))
      else if Ascii.eqb a "0" && between 49 57 b then Some (code b - 48)
      else if Ascii.eqb a " " && between 49 57 b then Some (code b - 48)
      else None
  | _ => None
  end.

(** [strptime(s, "%Y-%m-%d")]: four digits, month and day as above, and
    the date must exist. *)
Definition strptime_ymd (s : string) : option (Z * Z * Z) :=
  match s with
  | String y1 (String y2 (String y3 (String y4 (String "-" rest)))) =>
      d1 <- digit y1 ;; d2 <- digit y2 ;; d3 <- digit y3 ;; d4 <- digit y4 ;;
      let year := 1000 * d1 + 100 * d2 + 10 * d3 + d4 in
      mr <- strptime_month rest ;;
      let '(month, rest) := mr in
      day <- strptime_day rest ;;
      if valid_date year month day then Some (year, month, day) else None
  | _ => None
  end.

Definition is_alpha (a : ascii) : bool := between 65 90 a || between 97 122 a.

(** [scheme_chars]: letters, digits and [+-.]. *)
Definition is_scheme_char (a : ascii) : bool :=
  is_alpha a || between 48 57 a ||
  Ascii.eqb a "+" || Ascii.eqb a "-" || Ascii.eqb a ".".

Fixpoint all_chars (f : ascii -> bool) (s : string) : bool :=
  match s with
  | EmptyString => true
  | String a s' => f a && all_chars f s'
  end.

Fixpoint remove_chars (f : ascii -> bool) (s : string) : string :=
  match s with
  | EmptyString => EmptyString
  | String a s' => if f a then remove_chars f s' else String a (remove_chars f s')
  end.

(** [url[:i]] and [url[i+1:]] for [i = url.find(':')], when the prefix is
    a scheme. *)
Definition strip_scheme (url : string) : string :=
  match Py.split1 ":" url with
  | [String a before; after] =>
      if is_alpha a && all_chars is_scheme_char (String a before) then after
      else url
  | _ => url
  end.

(** [_splitnetloc(url, 2)]: the authority runs to the first of [/?#]. *)
Fixpoint splitnetloc (s : string) : string * string :=
  match s with
  | EmptyString => (EmptyString, EmptyString)
  | String a s' =>
      if Ascii.eqb a "/" || Ascii.eqb a "?" || Ascii.eqb a "#"
      then (EmptyString, s)
      else let '(netloc, rest) := splitnetloc s' in (String a netloc, rest)
  end.

(** The query component of [urlsplit(url)]. *)
Definition urlsplit_query (url : string) : option string :=
  let url := lstrip (between 0 32) url in
  let url := remove_chars (fun a => Ascii.eqb a "009" || Ascii.eqb a "013"
                                    || Ascii.eqb a "010") url in
  let url := strip_scheme url in
  st <- (match url with
         | String "/" (String "/" after) =>
             let '(netloc, rest) := splitnetloc after in
             if xorb (Py.contains "[" netloc) (Py.contains "]" netloc)
             then None
             else Some rest
         | _ => Some url
         end) ;;
  let url := st in
  let url := match Py.split1 "#" url with
             | before :: _ => before
             | [] => url
             end in
  match Py.split1 "?" url with
  | [_; query] => Some query
  | _ => Some EmptyString
  end.

Definition hex (a : ascii) : option Z :=
  if between 48 57 a then Some (code a - 48)
  else if between 65 70 a then Some (code a - 55)
  else if between 97 102 a then Some (code a - 87)
  else None.

(** One piece after a [%] in [unquote_to_bytes]: two hex digits give a
    byte, anything else keeps the percent sign. *)
Definition unquote_item (item : string) : string :=
  match item with
  | String a (String b rest) =>
      match hex a, hex b with
      | Some h, Some l => String (ascii_of_N (Z.to_N (16 * h + l))) rest
      | _, _ => String "%" item
      end
  | _ => String "%" item
  end.

Definition unquote_str (s : string) : string :=
  if Py.contains "%" s then
    match Py.split "%" s with
    | first :: items => first ++ String.concat "" (map unquote_item items)
    | [] => s
    end
  else s.

(** [parsed_result[name].append(value)], or a new list. *)
Definition add_value (name value : string) (d : Py.dict (list string))
  : Py.dict (list string) :=
  match Py.get name d with
  | Some values => Py.setitem name (values ++ [value])%list d
  | None => Py.setitem name [value] d
  end.

(** [parse_qs(qs)] with its defaults: fields split at [&], fields without
    [=] or with a blank value dropped, [+] read as a space. *)
Definition parse_qs_str (qs : string) : Py.dict (list string) :=
  fold_left
    (fun parsed_result name_value =>
       if Py.truthy name_value then
         match Py.split1 "=" name_value with
         | [n; v] =>
             if Py.truthy v then
               add_value (unquote_str (Py.replace "+" " " n))
                         (unquote_str (Py.replace "+" " " v)) parsed_result
             else parsed_result
         | _ => parsed_result
         end
       else parsed_result)
    (Py.split "&" qs) [].

#[export] Instance lib : PyLib := {
  py_int := int;
  strptime := strptime_ymd;
  urlparse_query := urlsplit_query;
  parse_qs := parse_qs_str;
  unquote := unquote_str
}.

End CPython.

(* ================================================================== *)
(** ** youtube_analyzer.py *)
(* ================================================================== *)

Module YoutubeAnalyzer.

(** *** What the provider sends *)

Module Thumbnail.
Record t : Type := { url : option string }.
End Thumbnail.

Module Thumbnails.
Record t : Type := {
  high : option Thumbnail.t;
  medium : option Thumbnail.t;
  default : option Thumbnail.t
}.
End Thumbnails.

Module Snippet.
Record t : Type := {
  title : option string;
  customUrl : option string;
  country : option string;
  publishedAt : option string;
  thumbnails : option Thumbnails.t
}.
End Snippet.

Module Statistics.
Record t : Type := {
  subscriberCount : option Z;
  videoCount : option Z;
  viewCount : option Z;
  likeCount : option Z;
  commentCount : option Z
}.
End Statistics.

Module ContentDetails.
Record t : Type := { duration : option string }.
End ContentDetails.

(** An item of [channels().list]; [uploads] is
    [contentDetails.relatedPlaylists.uploads], read by indexing. *)
Module Channel.
Record t : Type := {
  id : option string;
  snippet : option Snippet.t;
  statistics : option Statistics.t;
  uploads : option string
}.
End Channel.

(** An item of [videos().list]. *)
Module Video.
Record t : Type := {
  id : option string;
  snippet : option Snippet.t;
  statistics : option Statistics.t;
  contentDetails : option ContentDetails.t
}.
End Video.

(** An item of [playlistItems().list]: [publishedAt] is
    [item['snippet']['publishedAt']] and [videoId] is
    [item['contentDetails']['videoId']], both read by indexing. *)
Module PlaylistItem.
Record t : Type := {
  publishedAt : string;
  videoId : string
}.
End PlaylistItem.

(** The response of [retrieve_youtube_data].  [video_stats] is
    [data['video_stats']['items']], [None] when either key is absent. *)
Module Data.
Record t : Type := {
  items : option (list Channel.t);
  video_stats : option (list Video.t)
}.
End Data.

(** A scraped link, and what the scraper returns (its [links] entry). *)
Module Link.
Record t : Type := {
  text : string;
  url : string;
  direct_url : option string
}.
End Link.

Module ChannelLinks.
Record t : Type := { links : option (list Link.t) }.
End ChannelLinks.

(** *** What the program builds *)

Module ChannelInfo.
Record t : Type := {
  id : string;
  title : string;
  custom_url : string;
  country : string;
  published_at : string;
  subscriber_count : Z;
  video_count : Z;
  total_views : Z;
  profile_picture_url : string
}.
End ChannelInfo.

Module VideoMetrics.
Record t : Type := {
  analyzed_videos_count : Z;
  avg_views : Q;
  max_views : Z;
  min_views : Z;
  total_views : Z;
  avg_likes : Q;
  avg_comments : Q;
  engagement_rate : Q
}.
End VideoMetrics.

Module RecentVideo.
Record t : Type := {
  title : string;
  published_at : string;
  views : Z;
  likes : Z;
  comments : Z;
  video_id : string;
  video_url : string;
  thumbnail_url : string
}.
End RecentVideo.

Module VideoAverages.
Record t : Type := {
  count : Z;
  avg_views : Q;
  avg_likes : Q;
  avg_comments : Q;
  engagement_rate : Q;
  max_views : Z;
  min_views : Z;
  avg_duration_seconds : Q;
  like_to_view_ratio : Q;
  comment_to_view_ratio : Q
}.
End VideoAverages.

(** The [metrics] dictionary; a key not set is [None]. *)
Module Metrics.
Record t : Type := {
  channel_info : option ChannelInfo.t;
  video_metrics : option VideoMetrics.t;
  recent_videos : option (list RecentVideo.t);
  video_averages : option VideoAverages.t;
  external_links : option (list Link.t)
}.
Definition empty : t :=
  {| channel_info := None; video_metrics := None; recent_videos := None;
     video_averages := None; external_links := None |}.
End Metrics.

Module AnalysisResult.
Record t : Type := {
  raw_data : Data.t;
  metrics : Metrics.t;
  channel_links : option ChannelLinks.t
}.
End AnalysisResult.

(** A channel as [search_youtube_channels] lists it. *)
Module SearchChannel.
Record t : Type := {
  channel_id : option string;
  title : option string
}.
End SearchChannel.

(** An entry of the exported document. *)
Module ExportEntry.
Record t : Type := {
  channel_info : option ChannelInfo.t;
  video_metrics : option VideoMetrics.t;
  video_averages : option VideoAverages.t;
  external_links : list Link.t;
  recent_videos : list RecentVideo.t
}.
End ExportEntry.

(** The document [export_to_json] hands to [json.dump], without its
    [timestamp]. *)
Module ExportData.
Record t : Type := {
  query : string;
  channels : Py.dict ExportEntry.t
}.
End ExportData.

(** *** The outside world *)

Inductive ChannelQuery : Type :=
| ById (channel_id : string)
| ForUsername (username : string)
| ForHandle (handle : string).

(** The provider, the clock and the scraper.  [None] is a raised
    exception.
    - [channels_list q] is the [items] of [channels().list(..)] (absent
      reads as empty), [playlistItems_list] and [videos_list] likewise.
    - [cutoff_date_isoformat days_ago] is
      [(datetime.now() - timedelta(days=days_ago)).isoformat()].
    - [get_channel_links_playwright] returns a dictionary or [None]. *)
Class World : Type := {
  channels_list : ChannelQuery -> option (list Channel.t);
  playlistItems_list : string -> option (list PlaylistItem.t);
  videos_list : list string -> option (list Video.t);
  cutoff_date_isoformat : Z -> option string;
  PLAYWRIGHT_AVAILABLE : bool;
  get_channel_links_playwright :
    option string -> option string -> option string ->
    option (option ChannelLinks.t)
}.

(** *** datetime *)

Module Datetime.
Record t : Type := {
  year : Z; month : Z; day : Z;
  hour : Z; minute : Z; second : Z
}.
End Datetime.

Definition digit_char (n : Z) : ascii := ascii_of_N (Z.to_N (48 + n mod 10)).

Definition pad2 (n : Z) : string :=
  String (digit_char (n / 10)) (String (digit_char n) EmptyString).

Definition pad4 (n : Z) : string :=
  String (digit_char (n / 1000)) (String (digit_char (n / 100)) (pad2 n)).

(** [d.isoformat()] for a datetime whose microsecond is 0. *)
Definition isoformat (d : Datetime.t) : string :=
  pad4 (Datetime.year d) ++ "-" ++ pad2 (Datetime.month d) ++ "-" ++
  pad2 (Datetime.day d) ++ "T" ++ pad2 (Datetime.hour d) ++ ":" ++
  pad2 (Datetime.minute d) ++ ":" ++ pad2 (Datetime.second d).


Section Program.
Context `{PyLib} `{World}.

(** *** retrieve_youtube_data *)

(** Which request the identifiers select: the id first, then the
    username, then the handle without its leading [@]. *)
Definition select_request (channel_id username handle : option string)
  : option ChannelQuery :=
  match channel_id, username, handle with
  | Some (String a i), _, _ => Some (ById (String a i))
  | _, Some (String a u), _ => Some (ForUsername (String a u))
  | _, _, Some (String a h) =>
      Some (ForHandle (if Py.startswith "@" (String a h) then h
                       else String a h))
  | _, _, _ => None
  end.

(** [start_date_str]: the parsed date at midnight, or [None] after the
    warning for a string that does not parse. *)
Definition start_date_str (start_date : option string) : option string :=
  match start_date with
  | None => None
  | Some start_date =>
      match strptime start_date with
      | Some (y, m, d) =>
          let start_date_obj :=
            {| Datetime.year := y; Datetime.month := m; Datetime.day := d;
               Datetime.hour := 0; Datetime.minute := 0;
               Datetime.second := 0 |} in
          Some (isoformat start_date_obj ++ "Z")
      | None => None
      end
  end.

(** [end_date_str]: the parsed date moved to 23:59:59, or [None] after
    the warning. *)
Definition end_date_str (end_date : option string) : option string :=
  match end_date with
  | None => None
  | Some end_date =>
      match strptime end_date with
      | Some (y, m, d) =>
          let end_date_obj :=
            {| Datetime.year := y; Datetime.month := m; Datetime.day := d;
               Datetime.hour := 23; Datetime.minute := 59;
               Datetime.second := 59 |} in
          Some (isoformat end_date_obj ++ "Z")
      | None => None
      end
  end.

(** The body of the loop over the items: [meets_criteria]. *)
Definition meets_criteria (cutoff_date_str start_date_str end_date_str
                           : option string) (item : PlaylistItem.t) : bool :=
  let published_at := PlaylistItem.publishedAt item in
  let meets_criteria := true in
  let meets_criteria :=
    match cutoff_date_str with
    | Some c => if String.ltb published_at c then false else meets_criteria
    | None => meets_criteria
    end in
  let meets_criteria :=
    match start_date_str with
    | Some s => if String.ltb published_at s then false else meets_criteria
    | None => meets_criteria
    end in
  let meets_criteria :=
    match end_date_str with
    | Some e => if String.ltb e published_at then false else meets_criteria
    | None => meets_criteria
    end in
  meets_criteria.

(** "Filter videos by date": the new [videos_response['items']].  With no
    constraint the block is skipped; [None] is the exception of the
    cutoff computation. *)
Definition filter_videos_by_date (days_ago : option Z)
  (start_date end_date : option string) (items : list PlaylistItem.t)
  : option (list PlaylistItem.t) :=
  match days_ago, start_date, end_date with
  | None, None, None => Some items
  | _, _, _ =>
      cutoff_date_str <-
        (match days_ago with
         | Some days_ago =>
             cutoff_date <- cutoff_date_isoformat days_ago ;;
             Some (Some (cutoff_date ++ "Z"))
         | None => Some None
         end) ;;
      let start_date_str := start_date_str start_date in
      let end_date_str := end_date_str end_date in
      Some (filter (meets_criteria cutoff_date_str start_date_str end_date_str)
                   items)
  end.

(** [[video_ids[i:i+50] for i in range(0, len(video_ids), 50)]]. *)
Fixpoint chunks_of_50 (fuel : nat) (video_ids : list string)
  : list (list string) :=
  match fuel, video_ids with
  | S fuel, _ :: _ => firstn 50 video_ids :: chunks_of_50 fuel (skipn 50 video_ids)
  | _, _ => []
  end.

Fixpoint fetch_video_stats (video_id_chunks : list (list string))
  (all_video_stats : list Video.t) : option (list Video.t) :=
  match video_id_chunks with
  | [] => Some all_video_stats
  | chunk :: rest =>
      response_items <- videos_list chunk ;;
      fetch_video_stats rest (all_video_stats ++ response_items)%list
  end.

(** [None] is both [return None] and an exception caught by the
    function's handlers. *)
Definition retrieve_youtube_data (channel_id username handle : option string)
  (days_ago : option Z) (start_date end_date : option string)
  : option Data.t :=
  request <- select_request channel_id username handle ;;
  response_items <- channels_list request ;;
  match response_items with
  | [] => None
  | channel :: _ =>
      uploads_playlist_id <- Channel.uploads channel ;;
      videos_items <- playlistItems_list uploads_playlist_id ;;
      videos_items <-
        filter_videos_by_date days_ago start_date end_date videos_items ;;
      let video_ids := map PlaylistItem.videoId videos_items in
      all_video_stats <-
        fetch_video_stats (chunks_of_50 (List.length video_ids) video_ids) [] ;;
      Some {| Data.items := Some response_items;
              Data.video_stats := Some all_video_stats |}
  end.

(** *** extract_direct_url *)

Definition extract_direct_url (youtube_redirect_url : string) : string :=
  if Py.contains "youtube.com/redirect" youtube_redirect_url then
    match (query <- urlparse_query youtube_redirect_url ;;
           let query_params := parse_qs query in
           match Py.get "q" query_params with
           | Some values =>
               first <- Py.index values 0 ;;
               Some (Some (unquote first))
           | None => Some None
           end) with
    | Some (Some direct_url) => direct_url
    | Some None => youtube_redirect_url
    | None => youtube_redirect_url
    end
  else youtube_redirect_url.

(** *** calculate_video_averages *)

(** The body of the [try] in [calculate_video_averages] that converts
    one ISO 8601 duration to seconds.  [None] is any exception raised
    inside it (IndexError from [split(..)[1]], ValueError from [int]). *)
Definition duration_to_seconds (duration : string) : option Z :=
  let duration_seconds := 0 in
  st <- (if Py.contains "H" duration then
           before_h <- Py.index (Py.split "H" duration) 0 ;;
           hours_part <- Py.index (Py.split "T" before_h) 1 ;;
           hours <- py_int hours_part ;;
           rest <- Py.index (Py.split "H" duration) 1 ;;
           Some (duration_seconds + hours * 3600, rest)
         else
           rest <- Py.index (Py.split "T" duration) 1 ;;
           Some (duration_seconds, rest)) ;;
  let '(duration_seconds, duration) := st in
  st <- (if Py.contains "M" duration then
           minutes_part <- Py.index (Py.split "M" duration) 0 ;;
           minutes <- py_int minutes_part ;;
           rest <- Py.index (Py.split "M" duration) 1 ;;
           Some (duration_seconds + minutes * 60, rest)
         else Some (duration_seconds, duration)) ;;
  let '(duration_seconds, duration) := st in
  if Py.contains "S" duration then
    seconds_part <- Py.index (Py.split "S" duration) 0 ;;
    seconds <- py_int seconds_part ;;
    Some (duration_seconds + seconds)
  else Some duration_seconds.

(** What one video adds to [total_duration_seconds]:
    [content_details.get('duration', '')], skipped when falsy, and
    left out when the conversion raises ([except Exception: pass]). *)
Definition duration_contribution (duration : option string) : Z :=
  let duration := match duration with Some d => d | None => "" end in
  if Py.truthy duration then
    match duration_to_seconds duration with
    | Some duration_seconds => duration_seconds
    | None => 0
    end
  else 0.
(** [int(statistics.get(key, 0))] behind [video.get('statistics', {})]. *)
Definition stat (key : Statistics.t -> option Z)
  (statistics : option Statistics.t) : Z :=
  match statistics with
  | Some st => match key st with Some n => n | None => 0 end
  | None => 0
  end.

(** The counters of the loop over the videos. *)
Record Counters : Type := {
  total_views : Z;
  total_likes : Z;
  total_comments : Z;
  total_duration_seconds : Z;
  view_counts : list Z
}.

(** One turn of the loop. *)
Definition process_video (c : Counters) (video : Video.t) : Counters :=
  let statistics := Video.statistics video in
  let duration :=
    match Video.contentDetails video with
    | Some content_details => ContentDetails.duration content_details
    | None => None
    end in
  let view_count := stat Statistics.viewCount statistics in
  {| view_counts := (view_counts c ++ [view_count])%list;
     total_views := total_views c + view_count;
     total_likes := total_likes c + stat Statistics.likeCount statistics;
     total_comments :=
       total_comments c + stat Statistics.commentCount statistics;
     total_duration_seconds :=
       total_duration_seconds c + duration_contribution duration |}.

(** [None] is an exception leaving the function (a division by zero). *)
Definition calculate_video_averages (videos : list Video.t)
  : option VideoAverages.t :=
  match videos with
  | [] =>
      Some {| VideoAverages.count := 0;
              VideoAverages.avg_views := 0;
              VideoAverages.avg_likes := 0;
              VideoAverages.avg_comments := 0;
              VideoAverages.engagement_rate := 0;
              VideoAverages.max_views := 0;
              VideoAverages.min_views := 0;
              VideoAverages.avg_duration_seconds := 0;
              VideoAverages.like_to_view_ratio := 0;
              VideoAverages.comment_to_view_ratio := 0 |}
  | _ :: _ =>
      let c := fold_left process_video videos
                 {| total_views := 0; total_likes := 0; total_comments := 0;
                    total_duration_seconds := 0; view_counts := [] |} in
      let count := Z.of_nat (List.length videos) in
      avg_views <-
        (if 0 <? count then Py.true_div (total_views c) count
         else Some 0%Q) ;;
      avg_likes <-
        (if 0 <? count then Py.true_div (total_likes c) count
         else Some 0%Q) ;;
      avg_comments <-
        (if 0 <? count then Py.true_div (total_comments c) count
         else Some 0%Q) ;;
      avg_duration_seconds <-
        (if 0 <? count then Py.true_div (total_duration_seconds c) count
         else Some 0%Q) ;;
      engagement_rate <-
        (if 0 <? total_views c
         then Py.true_div (total_likes c + total_comments c) (total_views c)
         else Some 0%Q) ;;
      like_to_view_ratio <-
        (if 0 <? total_views c
         then Py.true_div (total_likes c) (total_views c)
         else Some 0%Q) ;;
      comment_to_view_ratio <-
        (if 0 <? total_views c
         then Py.true_div (total_comments c) (total_views c)
         else Some 0%Q) ;;
      max_views <-
        (match view_counts c with
         | [] => Some 0
         | _ :: _ => Py.max (view_counts c)
         end) ;;
      min_views <-
        (match view_counts c with
         | [] => Some 0
         | _ :: _ => Py.min (view_counts c)
         end) ;;
      Some {| VideoAverages.count := count;
              VideoAverages.avg_views := avg_views;
              VideoAverages.avg_likes := avg_likes;
              VideoAverages.avg_comments := avg_comments;
              VideoAverages.engagement_rate := engagement_rate;
              VideoAverages.max_views := max_views;
              VideoAverages.min_views := min_views;
              VideoAverages.avg_duration_seconds := avg_duration_seconds;
              VideoAverages.like_to_view_ratio := like_to_view_ratio;
              VideoAverages.comment_to_view_ratio := comment_to_view_ratio |}
  end.

(** *** extract_account_metrics *)

Definition or_default (o : option string) (default : string) : string :=
  match o with Some s => s | None => default end.

(** [thumbnails.get('high', {}).get('url', <medium>.get('url',
    <default>.get('url', unknown)))] behind [snippet.get('thumbnails', {})]. *)
Definition thumbnail_url (snippet : option Snippet.t) (unknown : string)
  : string :=
  let url_of (size : Thumbnails.t -> option Thumbnail.t) : option string :=
    thumbnails <- (snippet <- snippet ;; Snippet.thumbnails snippet) ;;
    thumbnail <- size thumbnails ;;
    Thumbnail.url thumbnail in
  match url_of Thumbnails.high with
  | Some u => u
  | None =>
      match url_of Thumbnails.medium with
      | Some u => u
      | None => or_default (url_of Thumbnails.default) unknown
      end
  end.

Definition snippet_field (field : Snippet.t -> option string)
  (snippet : option Snippet.t) (default : string) : string :=
  or_default (snippet <- snippet ;; field snippet) default.

Definition channel_info_of (channel : Channel.t) : ChannelInfo.t :=
  let snippet := Channel.snippet channel in
  let statistics := Channel.statistics channel in
  {| ChannelInfo.id := or_default (Channel.id channel) "Unknown";
     ChannelInfo.title := snippet_field Snippet.title snippet "Unknown";
     ChannelInfo.custom_url :=
       snippet_field Snippet.customUrl snippet "Unknown";
     ChannelInfo.country := snippet_field Snippet.country snippet "N/A";
     ChannelInfo.published_at :=
       snippet_field Snippet.publishedAt snippet "Unknown";
     ChannelInfo.subscriber_count := stat Statistics.subscriberCount statistics;
     ChannelInfo.video_count := stat Statistics.videoCount statistics;
     ChannelInfo.total_views := stat Statistics.viewCount statistics;
     ChannelInfo.profile_picture_url := thumbnail_url snippet "Unknown" |}.

(** The [video_metrics] entry, computed under [if videos:]; [None] is an
    exception (a division by zero). *)
Definition video_metrics_of (videos : list Video.t) : option VideoMetrics.t :=
  let views := map (fun video => stat Statistics.viewCount (Video.statistics video))
                   videos in
  let total_views := Py.sum views in
  let total_likes :=
    Py.sum (map (fun video => stat Statistics.likeCount (Video.statistics video))
                videos) in
  let total_comments :=
    Py.sum (map (fun video =>
                   stat Statistics.commentCount (Video.statistics video))
                videos) in
  let len := Z.of_nat (List.length videos) in
  let nonempty := match videos with [] => false | _ :: _ => true end in
  avg_views <-
    (if nonempty then Py.true_div total_views len else Some 0%Q) ;;
  avg_likes <-
    (if nonempty then Py.true_div total_likes len else Some 0%Q) ;;
  avg_comments <-
    (if nonempty then Py.true_div total_comments len else Some 0%Q) ;;
  engagement_rate <-
    (if 0 <? total_views
     then Py.true_div (total_likes + total_comments) total_views
     else Some 0%Q) ;;
  max_views <- (if nonempty then Py.max views else Some 0) ;;
  min_views <- (if nonempty then Py.min views else Some 0) ;;
  Some {| VideoMetrics.analyzed_videos_count := len;
          VideoMetrics.avg_views := avg_views;
          VideoMetrics.max_views := max_views;
          VideoMetrics.min_views := min_views;
          VideoMetrics.total_views := total_views;
          VideoMetrics.avg_likes := avg_likes;
          VideoMetrics.avg_comments := avg_comments;
          VideoMetrics.engagement_rate := engagement_rate |}.

Definition recent_video_of (video : Video.t) : RecentVideo.t :=
  let snippet := Video.snippet video in
  let statistics := Video.statistics video in
  let video_id := or_default (Video.id video) "Unknown" in
  let video_url :=
    if String.eqb video_id "Unknown" then "Unknown"
    else "https://www.youtube.com/watch?v=" ++ video_id in
  {| RecentVideo.title := snippet_field Snippet.title snippet "Unknown";
     RecentVideo.published_at :=
       snippet_field Snippet.publishedAt snippet "Unknown";
     RecentVideo.views := stat Statistics.viewCount statistics;
     RecentVideo.likes := stat Statistics.likeCount statistics;
     RecentVideo.comments := stat Statistics.commentCount statistics;
     RecentVideo.video_id := video_id;
     RecentVideo.video_url := video_url;
     RecentVideo.thumbnail_url := thumbnail_url snippet "Unknown" |}.

(** [recent_videos.sort(key=published_at, reverse=True)]: newest first,
    equal keys in their original order. *)
Fixpoint insert_newest_first (v : RecentVideo.t) (sorted : list RecentVideo.t)
  : list RecentVideo.t :=
  match sorted with
  | [] => [v]
  | w :: rest =>
      if String.ltb (RecentVideo.published_at v) (RecentVideo.published_at w)
      then w :: insert_newest_first v rest
      else v :: sorted
  end.

Definition sort_newest_first (vs : list RecentVideo.t) : list RecentVideo.t :=
  fold_right insert_newest_first [] vs.

(** [None] is an exception leaving the function. *)
Definition extract_account_metrics (data : Data.t) : option Metrics.t :=
  match Data.items data with
  | None | Some [] => Some Metrics.empty
  | Some (channel :: _) =>
      let channel_info := channel_info_of channel in
      match Data.video_stats data with
      | Some (video :: more) =>
          let videos := video :: more in
          video_metrics <- video_metrics_of videos ;;
          Some {| Metrics.channel_info := Some channel_info;
                  Metrics.video_metrics := Some video_metrics;
                  Metrics.recent_videos :=
                    Some (sort_newest_first (map recent_video_of videos));
                  Metrics.video_averages := None;
                  Metrics.external_links := None |}
      | Some [] | None =>
          Some {| Metrics.channel_info := Some channel_info;
                  Metrics.video_metrics := None;
                  Metrics.recent_videos := None;
                  Metrics.video_averages := None;
                  Metrics.external_links := None |}
      end
  end.

(** *** analyze_youtube_channel *)

Definition set_video_averages (m : Metrics.t) (v : VideoAverages.t)
  : Metrics.t :=
  {| Metrics.channel_info := Metrics.channel_info m;
     Metrics.video_metrics := Metrics.video_metrics m;
     Metrics.recent_videos := Metrics.recent_videos m;
     Metrics.video_averages := Some v;
     Metrics.external_links := Metrics.external_links m |}.

Definition set_external_links (m : Metrics.t) (l : list Link.t) : Metrics.t :=
  {| Metrics.channel_info := Metrics.channel_info m;
     Metrics.video_metrics := Metrics.video_metrics m;
     Metrics.recent_videos := Metrics.recent_videos m;
     Metrics.video_averages := Metrics.video_averages m;
     Metrics.external_links := Some l |}.

(** The outer [None] is an exception leaving the function, the inner one
    is [return None]. *)
Definition analyze_youtube_channel (channel_id username handle : option string)
  (days_ago : option Z) (start_date end_date : option string)
  (extract_links : bool) : option (option AnalysisResult.t) :=
  match retrieve_youtube_data channel_id username handle days_ago
          start_date end_date with
  | None => Some None
  | Some data =>
      match Data.items data with
      | None | Some [] => Some None
      | Some (_ :: _) =>
          metrics <- extract_account_metrics data ;;
          metrics <-
            (match Data.video_stats data with
             | Some videos =>
                 video_averages <- calculate_video_averages videos ;;
                 Some (set_video_averages metrics video_averages)
             | None => Some metrics
             end) ;;
          let '(channel_links, metrics) :=
            if extract_links && PLAYWRIGHT_AVAILABLE then
              match get_channel_links_playwright channel_id username handle with
              | Some channel_links =>
                  match channel_links with
                  | Some {| ChannelLinks.links := Some (l :: ls) |} =>
                      (channel_links, set_external_links metrics (l :: ls))
                  | _ => (channel_links, set_external_links metrics [])
                  end
              | None => (None, set_external_links metrics [])
              end
            else (None, set_external_links metrics []) in
          Some (Some {| AnalysisResult.raw_data := data;
                        AnalysisResult.metrics := metrics;
                        AnalysisResult.channel_links := channel_links |})
      end
  end.

(** *** analyze_search_results *)

(** One turn of the loop.  [results[channel_id] = result] needs a result,
    which an absent [channel_id] never has (see
    [analyze_needs_identifier]), so the key is a string.  [None] is an
    exception of the analysis, which leaves the loop. *)
Definition analyze_one (days_ago : option Z) (start_date end_date : option string)
  (extract_links : bool) (results : Py.dict AnalysisResult.t)
  (channel : SearchChannel.t) : option (Py.dict AnalysisResult.t) :=
  let channel_id := SearchChannel.channel_id channel in
  result <- analyze_youtube_channel channel_id None None days_ago
              start_date end_date extract_links ;;
  match result, channel_id with
  | Some result, Some key => Some (Py.setitem key result results)
  | _, _ => Some results
  end.

Definition analyze_search_results (channels : list SearchChannel.t)
  (days_ago : option Z) (start_date end_date : option string)
  (extract_links : bool) : option (Py.dict AnalysisResult.t) :=
  fold_left
    (fun results channel =>
       results <- results ;;
       analyze_one days_ago start_date end_date extract_links results channel)
    channels (Some []).

(** *** export_to_json *)

(** [metrics.get('channel_info', {}).get('title', channel_id)]. *)
Definition export_key (channel_id : string) (metrics : Metrics.t) : string :=
  match Metrics.channel_info metrics with
  | Some channel_info => ChannelInfo.title channel_info
  | None => channel_id
  end.

Definition export_entry (metrics : Metrics.t) : ExportEntry.t :=
  {| ExportEntry.channel_info := Metrics.channel_info metrics;
     ExportEntry.video_metrics := Metrics.video_metrics metrics;
     ExportEntry.video_averages := Metrics.video_averages metrics;
     ExportEntry.external_links :=
       match Metrics.external_links metrics with Some l => l | None => [] end;
     ExportEntry.recent_videos :=
       match Metrics.recent_videos metrics with Some l => l | None => [] end |}.

(** The [export_data] that [export_to_json] writes; [None] when there are
    no results. *)
Definition export_to_json (results : Py.dict AnalysisResult.t)
  (query : option string) : option ExportData.t :=
  match results with
  | [] => None
  | _ :: _ =>
      Some {| ExportData.query :=
                match query with
                | Some (String a q) => String a q
                | _ => "direct_export"
                end;
              ExportData.channels :=
                fold_left
                  (fun channels entry =>
                     let '(channel_id, result) := entry in
                     let metrics := AnalysisResult.metrics result in
                     Py.setitem (export_key channel_id metrics)
                                (export_entry metrics) channels)
                  results [] |}
  end.

End Program.

(** *** export_to_json: the name of the file *)

(** The name [export_to_json] writes to; [timestamp] is
    [datetime.datetime.now().strftime("%Y%m%d_%H%M%S")]. *)
Definition export_filename (filename : option string) (timestamp : string)
  : string :=
  match filename with
  | Some (String a f) =>
      if negb (Py.endswith ".json" (String a f)) then String a f ++ ".json"
      else String a f
  | _ => "youtube_analysis_" ++ timestamp ++ ".json"
  end.

(** *** get_channel_links and get_channel_links_playwright: the steps
    around the browser *)

(** The first lines of [get_channel_links]: the URL must name YouTube
    ([None] is the ValueError) and is made to end with [/about]. *)
Definition about_url (url : string) : option string :=
  if negb (Py.contains "youtube.com" url) then None
  else if negb (Py.endswith "/about" url) then
         if Py.endswith "/" url then Some (url ++ "about")
         else Some (url ++ "/about")
       else Some url.

(** "Extract channel ID" of [get_channel_links], from [parsed_url.path]. *)
Definition channel_id_from_path (path : string) : string :=
  let channel_id := "Unknown" in
  let path_parts := Py.split "/" (Py.strip "/" path) in
  if Py.mem "channel" path_parts then
    match Py.list_index "channel" path_parts with
    | Some idx =>
        if Nat.ltb (idx + 1) (List.length path_parts)
        then nth (idx + 1) path_parts channel_id
        else channel_id
    | None => channel_id
    end
  else match path_parts with
       | first :: _ => if Py.contains "@" first then first else channel_id
       | [] => channel_id
       end.

(** The URL [get_channel_links_playwright] builds for
    [get_channel_links]; [None] is its [return None]. *)
Definition links_page_url (channel_id username handle : option string)
  : option string :=
  match channel_id, username, handle with
  | Some (String a i), _, _ =>
      Some ("https://www.youtube.com/channel/" ++ String a i ++ "/about")
  | _, Some (String a u), _ =>
      Some ("https://www.youtube.com/user/" ++ String a u ++ "/about")
  | _, _, Some (String a h) =>
      let handle := if Py.startswith "@" (String a h) then h else String a h in
      Some ("https://www.youtube.com/@" ++ handle ++ "/about")
  | _, _, _ => None
  end.

(** The search call of the provider: the [channelId] of each item of
    [search().list(q=query, type="channel", maxResults=max_results)], in
    the provider's order; [None] is a raised exception. *)
Class SearchApi : Type := {
  search_list : string -> Z -> option (list string)
}.

Section Search.
Context `{PyLib} `{World} `{SearchApi}.

(** *** analyze_from_json_data, for data that is already a dictionary *)

(** The outer [None] is an exception leaving the function. *)
Definition analyze_from_json_data (data : Data.t)
  : option (Data.t * Metrics.t) :=
  metrics <- extract_account_metrics data ;;
  metrics <-
    (match Data.video_stats data with
     | Some videos =>
         video_averages <- calculate_video_averages videos ;;
         Some (set_video_averages metrics video_averages)
     | None => Some metrics
     end) ;;
  Some (data, metrics).

(** *** check_analyzed_videos_count, for data that is a dictionary *)

Definition check_analyzed_videos_count (data : Data.t) : Z :=
  match Data.video_stats data with
  | Some items => Z.of_nat (List.length items)
  | None => 0
  end.

(** *** search_youtube_channels *)

(** The loop over the search items; [None] is an exception, raised by
    the provider or by [channel_details['snippet']]. *)
Fixpoint search_loop (channel_ids : list string)
  (channels : list SearchChannel.t) : option (list SearchChannel.t) :=
  match channel_ids with
  | [] => Some channels
  | channel_id :: rest =>
      response_items <- channels_list (ById channel_id) ;;
      match response_items with
      | channel_details :: _ =>
          snippet <- Channel.snippet channel_details ;;
          search_loop rest
            (channels ++
             [{| SearchChannel.channel_id := Some channel_id;
                 SearchChannel.title :=
                   Some (or_default (Snippet.title snippet) "Unknown") |}])%list
      | [] => search_loop rest channels
      end
  end.

(** Any exception makes the function return the empty list. *)
Definition search_youtube_channels (query : string) (max_results : Z)
  : list SearchChannel.t :=
  match (channel_ids <- search_list query max_results ;;
         search_loop channel_ids []) with
  | Some channels => channels
  | None => []
  end.

(** *** run_youtube_analysis *)

(** "Calculate and add video averages for each channel": one result. *)
Definition add_video_averages (result : AnalysisResult.t)
  : option AnalysisResult.t :=
  match Data.video_stats (AnalysisResult.raw_data result) with
  | Some videos =>
      video_averages <- calculate_video_averages videos ;;
      Some {| AnalysisResult.raw_data := AnalysisResult.raw_data result;
              AnalysisResult.metrics :=
                set_video_averages (AnalysisResult.metrics result)
                                   video_averages;
              AnalysisResult.channel_links :=
                AnalysisResult.channel_links result |}
  | None => Some result
  end.

Fixpoint add_all_video_averages (results : Py.dict AnalysisResult.t)
  : option (Py.dict AnalysisResult.t) :=
  match results with
  | [] => Some []
  | (channel_id, result) :: rest =>
      result <- add_video_averages result ;;
      rest <- add_all_video_averages rest ;;
      Some ((channel_id, result) :: rest)
  end.

(** The dictionary [run_youtube_analysis] returns ([None] is an
    exception); its printing and its export are left out. *)
Definition run_youtube_analysis (query : string)
  : option (Py.dict AnalysisResult.t) :=
  let max_results := 5 in
  let extract_links := true in
  let extract_links :=
    if negb PLAYWRIGHT_AVAILABLE then false else extract_links in
  match search_youtube_channels query max_results with
  | [] => Some []
  | channel :: more =>
      results <- analyze_search_results (channel :: more) None None None
                   extract_links ;;
      add_all_video_averages results
  end.

End Search.

End YoutubeAnalyzer.

(* ================================================================== *)
(** ** app.py *)
(* ================================================================== *)

Module App.

(** The query parameters of [GET /api/channel]; [extract_links] is
    [request.args.get('extract_links', 'false').lower() == 'true']. *)
Module Args.
Record t : Type := {
  channel_id : option string;
  username : option string;
  handle : option string;
  days : option string;
  start_date : option string;
  end_date : option string;
  extract_links : bool
}.
End Args.

Section Handlers.
Context `{PyLib} `{YoutubeAnalyzer.World}.

(** A parameter guarded by [if value:] and then checked under [try]. *)
Definition rejects {A : Type} (value : option string)
  (check : string -> option A) : bool :=
  match value with
  | Some (String a v) =>
      match check (String a v) with
      | Some _ => false
      | None => true
      end
  | _ => false
  end.

(** [analyze_channel] up to its call of [analyze_youtube_channel]: the
    status and error of the response returned before that call, or [None]
    when the call is made. *)
Definition analyze_channel_rejection (args : Args.t) : option (Z * string) :=
  if negb (Py.truthy_opt (Args.channel_id args)
           || Py.truthy_opt (Args.username args)
           || Py.truthy_opt (Args.handle args))
  then Some (400, "You must provide either channel_id, username, or handle")
  else if rejects (Args.days args) py_int
  then Some (400, "days parameter must be an integer")
  else if rejects (Args.start_date args) strptime
  then Some (400, "start_date must be in YYYY-MM-DD format")
  else if rejects (Args.end_date args) strptime
  then Some (400, "end_date must be in YYYY-MM-DD format")
  else if Args.extract_links args && negb YoutubeAnalyzer.PLAYWRIGHT_AVAILABLE
  then Some (500, "Playwright is not available. Cannot extract external links.")
  else None.

End Handlers.

(** The query parameters of [GET /api/search] and [GET /api/analyze] that
    are checked first. *)
Module SearchArgs.
Record t : Type := {
  query : option string;
  max_results : option string
}.
End SearchArgs.

Section SearchHandlers.
Context `{PyLib}.

(** The checks that open [search_channels] ([limit] 50) and
    [analyze_search_results] ([limit] 10): the status and error of the
    response returned by them, or the [max_results] the handler goes on
    with. *)
Definition checked_max_results (limit : Z) (args : SearchArgs.t)
  : (Z * string) + Z :=
  if negb (Py.truthy_opt (SearchArgs.query args))
  then inl (400, "query parameter is required")
  else
    let max_results :=
      match SearchArgs.max_results args with
      | Some m => m
      | None => "5"
      end in
    match py_int max_results with
    | Some max_results => inr (Py.clamp 1 limit max_results)
    | None => inl (400, "max_results parameter must be an integer")
    end.

(** "Process external links to remove YouTube redirect URLs": one link. *)
Definition direct_link (link : YoutubeAnalyzer.Link.t)
  : YoutubeAnalyzer.Link.t :=
  if Py.contains "youtube.com/redirect" (YoutubeAnalyzer.Link.url link) then
    {| YoutubeAnalyzer.Link.text := YoutubeAnalyzer.Link.text link;
       YoutubeAnalyzer.Link.url :=
         YoutubeAnalyzer.extract_direct_url (YoutubeAnalyzer.Link.url link);
       YoutubeAnalyzer.Link.direct_url :=
         YoutubeAnalyzer.Link.direct_url link |}
  else link.

Definition direct_links (external_links : list YoutubeAnalyzer.Link.t)
  : list YoutubeAnalyzer.Link.t :=
  map direct_link external_links.

End SearchHandlers.

(** An entry of the document that [GET /api/analyze] answers with; its
    [social_handles], which no metrics carry, are left out. *)
Module AnalyzeEntry.
Record t : Type := {
  channel_info : option YoutubeAnalyzer.ChannelInfo.t;
  video_metrics : option YoutubeAnalyzer.VideoMetrics.t;
  external_links : list YoutubeAnalyzer.Link.t;
  recent_videos : list YoutubeAnalyzer.RecentVideo.t
}.
End AnalyzeEntry.

Section AnalyzeHandler.
Context `{PyLib}.

(** "Process each channel's data" of the handler [analyze_search_results]:
    the [channels] of its answer. *)
Definition analyze_channels
  (results : Py.dict YoutubeAnalyzer.AnalysisResult.t)
  : Py.dict AnalyzeEntry.t :=
  fold_left
    (fun channels entry =>
       let '(channel_id, result) := entry in
       let metrics := YoutubeAnalyzer.AnalysisResult.metrics result in
       let external_links :=
         match YoutubeAnalyzer.Metrics.external_links metrics with
         | Some l => l
         | None => []
         end in
       let external_links := direct_links external_links in
       Py.setitem
         (match YoutubeAnalyzer.Metrics.channel_info metrics with
          | Some channel_info => YoutubeAnalyzer.ChannelInfo.title channel_info
          | None => channel_id
          end)
         {| AnalyzeEntry.channel_info :=
              YoutubeAnalyzer.Metrics.channel_info metrics;
            AnalyzeEntry.video_metrics :=
              YoutubeAnalyzer.Metrics.video_metrics metrics;
            AnalyzeEntry.external_links := external_links;
            AnalyzeEntry.recent_videos :=
              match YoutubeAnalyzer.Metrics.recent_videos metrics with
              | Some l => l
              | None => []
              end |}
         channels)
    results [].

(** An entry of [export_to_json] as the handler would answer it: without
    the detailed averages and with its links made direct. *)
Definition answered (entry : YoutubeAnalyzer.ExportEntry.t) : AnalyzeEntry.t :=
  {| AnalyzeEntry.channel_info :=
       YoutubeAnalyzer.ExportEntry.channel_info entry;
     AnalyzeEntry.video_metrics :=
       YoutubeAnalyzer.ExportEntry.video_metrics entry;
     AnalyzeEntry.external_links :=
       direct_links (YoutubeAnalyzer.ExportEntry.external_links entry);
     AnalyzeEntry.recent_videos :=
       YoutubeAnalyzer.ExportEntry.recent_videos entry |}.

End AnalyzeHandler.

End App.

(* ================================================================== *)
(** ** Properties of the statistics aggregator *)
(* ================================================================== *)

Module AggregatorFacts.
Import YoutubeAnalyzer.

Definition views_of (videos : list Video.t) : list Z :=
  map (fun video => stat Statistics.viewCount (Video.statistics video)) videos.

Definition likes_of (videos : list Video.t) : list Z :=
  map (fun video => stat Statistics.likeCount (Video.statistics video)) videos.

Definition comments_of (videos : list Video.t) : list Z :=
  map (fun video => stat Statistics.commentCount (Video.statistics video))
      videos.

(** The ratio [a / b if b > 0 else 0]. *)
Definition guarded_ratio (a b : Z) : Q :=
  if 0 <? b then (inject_Z a / inject_Z b)%Q else 0%Q.

(** The all-zero detailed averages. *)
Definition zero_averages : VideoAverages.t :=
  {| VideoAverages.count := 0;
     VideoAverages.avg_views := 0;
     VideoAverages.avg_likes := 0;
     VideoAverages.avg_comments := 0;
     VideoAverages.engagement_rate := 0;
     VideoAverages.max_views := 0;
     VideoAverages.min_views := 0;
     VideoAverages.avg_duration_seconds := 0;
     VideoAverages.like_to_view_ratio := 0;
     VideoAverages.comment_to_view_ratio := 0 |}.

(** A summary whose count, averages, ratio and extrema are all 0. *)
Definition zero_summary (s : VideoMetrics.t) : Prop :=
  VideoMetrics.analyzed_videos_count s = 0 /\
  VideoMetrics.avg_views s = 0%Q /\
  VideoMetrics.avg_likes s = 0%Q /\
  VideoMetrics.avg_comments s = 0%Q /\
  VideoMetrics.engagement_rate s = 0%Q /\
  VideoMetrics.max_views s = 0 /\
  VideoMetrics.min_views s = 0.

(** Both aggregations of [data], whose videos are [videos], return, and
    the summary [s] and the detailed averages [a] satisfy [P]. *)
Definition both_return `{PyLib} (data : Data.t) (videos : list Video.t)
  (P : VideoMetrics.t -> VideoAverages.t -> Prop) : Prop :=
  exists metrics s a,
    extract_account_metrics data = Some metrics /\
    Metrics.video_metrics metrics = Some s /\
    calculate_video_averages videos = Some a /\
    P s a.



(** The mean of the views lies between the extrema, in both summaries. *)
Definition mean_between_extrema (s : VideoMetrics.t) (a : VideoAverages.t)
  : Prop :=
  (inject_Z (VideoMetrics.min_views s) <= VideoMetrics.avg_views s)%Q /\
  (VideoMetrics.avg_views s <= inject_Z (VideoMetrics.max_views s))%Q /\
  (inject_Z (VideoAverages.min_views a) <= VideoAverages.avg_views a)%Q /\
  (VideoAverages.avg_views a <= inject_Z (VideoAverages.max_views a))%Q.




(** Test data: one channel and videos given by their three counts. *)
Definition a_channel : Channel.t :=
  {| Channel.id := Some "UC1";
     Channel.snippet := None;
     Channel.statistics := None;
     Channel.uploads := Some "UU1" |}.

Definition a_video (views likes comments : Z) : Video.t :=
  {| Video.id := None;
     Video.snippet := None;
     Video.statistics :=
       Some {| Statistics.subscriberCount := None;
               Statistics.videoCount := None;
               Statistics.viewCount := Some views;
               Statistics.likeCount := Some likes;
               Statistics.commentCount := Some comments |};
     Video.contentDetails := None |}.

Definition data_of (videos : list Video.t) : Data.t :=
  {| Data.items := Some [a_channel]; Data.video_stats := Some videos |}.

End AggregatorFacts.

(* ================================================================== *)
(** ** Properties of the temporal filter *)
(* ================================================================== *)

Module FilterFacts.
Import YoutubeAnalyzer.

(** A date string is given and does not parse. *)
Definition unparsable `{PyLib} (date : option string) : Prop :=
  exists s, date = Some s /\ strptime s = None.

Definition midnight (y m d : Z) : Datetime.t :=
  {| Datetime.year := y; Datetime.month := m; Datetime.day := d;
     Datetime.hour := 0; Datetime.minute := 0; Datetime.second := 0 |}.

Definition end_of_day (y m d : Z) : Datetime.t :=
  {| Datetime.year := y; Datetime.month := m; Datetime.day := d;
     Datetime.hour := 23; Datetime.minute := 59; Datetime.second := 59 |}.

(** The window as the specification words it: not before the relative
    cutoff, not before the start at midnight, not after the end at
    23:59:59; a constraint that is absent, or a date that did not parse,
    restricts nothing. *)
Definition within_window `{PyLib} `{World} (days_ago : option Z)
  (start_date end_date : option string) (item : PlaylistItem.t) : Prop :=
  let t := PlaylistItem.publishedAt item in
  (forall n cutoff, days_ago = Some n ->
     cutoff_date_isoformat n = Some cutoff ->
     String.ltb t (cutoff ++ "Z") = false) /\
  (forall s y m d, start_date = Some s -> strptime s = Some (y, m, d) ->
     String.ltb t (isoformat (midnight y m d) ++ "Z") = false) /\
  (forall s y m d, end_date = Some s -> strptime s = Some (y, m, d) ->
     String.ltb (isoformat (end_of_day y m d) ++ "Z") t = false).

Definition published (at_ video_id : string) : PlaylistItem.t :=
  {| PlaylistItem.publishedAt := at_; PlaylistItem.videoId := video_id |}.

Definition mid_january : PlaylistItem.t := published "2024-01-15T00:00:00Z" "v1".

Definition first_of_february : PlaylistItem.t :=
  published "2024-02-01T00:00:00Z" "v2".

End FilterFacts.

(* ================================================================== *)
(** ** Properties of the batch orchestrator and of the export *)
(* ================================================================== *)

Module BatchFacts.
Import YoutubeAnalyzer.


(** The keys of a dictionary after [d[k] = v]. *)
Definition add_key (k : string) (ks : list string) : list string :=
  if existsb (fun k' => String.eqb k' k) ks then ks else (ks ++ [k])%list.

(** The identifiers, in search order, of the channels whose analysis
    returns a result. *)
Definition analyzed_ids `{PyLib} `{World} (channels : list SearchChannel.t)
  (days_ago : option Z) (start_date end_date : option string)
  (extract_links : bool) : list string :=
  flat_map
    (fun channel =>
       match SearchChannel.channel_id channel with
       | Some key =>
           match analyze_youtube_channel (Some key) None None days_ago
                   start_date end_date extract_links with
           | Some (Some _) => [key]
           | _ => []
           end
       | None => []
       end)
    channels.


(** A provider with two channels that carry the same title, each with the
    same two uploads; no scraper; a clock fixed at noon on 1 March 2024. *)
Definition titled (channel_id title : string) : Channel.t :=
  {| Channel.id := Some channel_id;
     Channel.snippet :=
       Some {| Snippet.title := Some title;
               Snippet.customUrl := None;
               Snippet.country := None;
               Snippet.publishedAt := None;
               Snippet.thumbnails := None |};
     Channel.statistics := None;
     Channel.uploads := Some "UU" |}.

Definition video_with_id (video_id : string) : Video.t :=
  {| Video.id := Some video_id;
     Video.snippet := None;
     Video.statistics :=
       Some {| Statistics.subscriberCount := None;
               Statistics.videoCount := None;
               Statistics.viewCount := Some 100;
               Statistics.likeCount := Some 10;
               Statistics.commentCount := Some 2 |};
     Video.contentDetails :=
       Some {| ContentDetails.duration := Some "PT5M13S" |} |}.

#[local] Instance two_namesakes : World := {
  channels_list q :=
    match q with
    | ById "UC1" => Some [titled "UC1" "Same Name"]
    | ById "UC2" => Some [titled "UC2" "Same Name"]
    | _ => Some []
    end;
  playlistItems_list _ :=
    Some [FilterFacts.mid_january; FilterFacts.first_of_february];
  videos_list ids := Some (map video_with_id ids);
  cutoff_date_isoformat days_ago :=
    Some "2024-03-01T12:00:00";
  PLAYWRIGHT_AVAILABLE := false;
  get_channel_links_playwright _ _ _ := Some None
}.

Definition found (channel_id : string) : SearchChannel.t :=
  {| SearchChannel.channel_id := Some channel_id;
     SearchChannel.title := None |}.

End BatchFacts.

(* ================================================================== *)
(** ** Further properties: what they are stated with *)
(* ================================================================== *)

Module MoreFacts.
Import YoutubeAnalyzer.

(** What each video adds to the total duration. *)
Definition durations_of `{PyLib} (videos : list Video.t) : list Z :=
  map (fun video =>
         duration_contribution
           (match Video.contentDetails video with
            | Some content_details => ContentDetails.duration content_details
            | None => None
            end))
      videos.

(** The detailed averages of a non-empty collection written with sums
    over the collection instead of the loop. *)
Definition averages_by_sums `{PyLib} (videos : list Video.t)
  : VideoAverages.t :=
  let n := Z.of_nat (List.length videos) in
  let views := Py.sum (AggregatorFacts.views_of videos) in
  let likes := Py.sum (AggregatorFacts.likes_of videos) in
  let comments := Py.sum (AggregatorFacts.comments_of videos) in
  {| VideoAverages.count := n;
     VideoAverages.avg_views := (inject_Z views / inject_Z n)%Q;
     VideoAverages.avg_likes := (inject_Z likes / inject_Z n)%Q;
     VideoAverages.avg_comments := (inject_Z comments / inject_Z n)%Q;
     VideoAverages.engagement_rate :=
       AggregatorFacts.guarded_ratio (likes + comments) views;
     VideoAverages.max_views :=
       match Py.max (AggregatorFacts.views_of videos) with
       | Some m => m
       | None => 0
       end;
     VideoAverages.min_views :=
       match Py.min (AggregatorFacts.views_of videos) with
       | Some m => m
       | None => 0
       end;
     VideoAverages.avg_duration_seconds :=
       (inject_Z (Py.sum (durations_of videos)) / inject_Z n)%Q;
     VideoAverages.like_to_view_ratio :=
       AggregatorFacts.guarded_ratio likes views;
     VideoAverages.comment_to_view_ratio :=
       AggregatorFacts.guarded_ratio comments views |}.

(** [m] is the greatest (least) element of [l]. *)
Definition greatest (m : Z) (l : list Z) : Prop :=
  In m l /\ forall x, In x l -> x <= m.

Definition least (m : Z) (l : list Z) : Prop :=
  In m l /\ forall x, In x l -> m <= x.


(** The character [c] does not occur in [s]. *)
Fixpoint free_of (c : ascii) (s : string) : bool :=
  match s with
  | EmptyString => true
  | String a s' => negb (Ascii.eqb a c) && free_of c s'
  end.

(** None of the designators of the duration parser occurs in [s]. *)
Definition plain (s : string) : bool :=
  free_of "H" s && free_of "M" s && free_of "S" s && free_of "T" s.

(** The provider answers the lookup of a searched channel without an
    exception: it sends no channel, or one with a snippet. *)
Definition lookup_ok `{World} (channel_id : string) : bool :=
  match channels_list (ById channel_id) with
  | Some [] => true
  | Some (channel_details :: _) =>
      match Channel.snippet channel_details with
      | Some _ => true
      | None => false
      end
  | None => false
  end.

(** The provider knows the searched channel. *)
Definition found `{World} (channel_id : string) : bool :=
  match channels_list (ById channel_id) with
  | Some (_ :: _) => true
  | _ => false
  end.


(** The last result that [export_to_json] files under [key]. *)
Definition last_filed (key : string) (results : Py.dict AnalysisResult.t)
  : option (string * AnalysisResult.t) :=
  find (fun entry =>
          String.eqb (export_key (fst entry) (AnalysisResult.metrics (snd entry)))
                     key)
       (rev results).

(** A datetime at a given time of day. *)
Definition at_time (y m d hh mm ss : Z) : Datetime.t :=
  {| Datetime.year := y; Datetime.month := m; Datetime.day := d;
     Datetime.hour := hh; Datetime.minute := mm; Datetime.second := ss |}.

(** The date and the time of day as [isoformat] writes them, the time
    followed by the [Z] that the filter appends. *)
Definition date_text (y m d : Z) : string :=
  pad4 y ++ "-" ++ pad2 m ++ "-" ++ pad2 d ++ "T".

Definition time_text (hh mm ss : Z) : string :=
  pad2 hh ++ ":" ++ pad2 mm ++ ":" ++ pad2 ss ++ "Z".

(** [f] holds at every second of a day. *)
Definition every_second (f : Z -> Z -> Z -> bool) : bool :=
  forallb
    (fun hh =>
       forallb
         (fun mm =>
            forallb (fun ss => f (Z.of_nat hh) (Z.of_nat mm) (Z.of_nat ss))
                    (seq 0 60))
         (seq 0 60))
    (seq 0 24).

(** The time of day is neither before midnight nor after 23:59:59. *)
Definition inside_day (hh mm ss : Z) : bool :=
  negb (String.ltb (time_text hh mm ss) "00:00:00Z") &&
  negb (String.ltb "23:59:59Z" (time_text hh mm ss)).

End MoreFacts.

(* ================================================================== *)
(** ** Proofs: rounding to binary64 *)
(* ================================================================== *)

Section RoundingProofs.
Import Binary64.
















End RoundingProofs.

(** The stored value of some quotients: 1/10, the mean 160/3 of the views
    100, 50 and 10, the integer 2^53 + 1 that binary64 does not hold, and
    the overflow at 2^1024. *)
Example binary64_samples :
  (exists f, Binary64.of_quotient (1 # 10) = Some f /\
             (f == 3602879701896397 # 36028797018963968)%Q) /\
  (exists f, Binary64.of_quotient (160 # 3) = Some f /\
             (f == 7505999378950827 # 140737488355328)%Q) /\
  (exists f, Binary64.of_quotient (inject_Z (2 ^ 53 + 1)) = Some f /\
             (f == inject_Z (2 ^ 53))%Q) /\
  Binary64.of_quotient (inject_Z (2 ^ 1024)) = None.
Proof.
  split; [eexists; split; [vm_compute; reflexivity | reflexivity]|].
  split; [eexists; split; [vm_compute; reflexivity | reflexivity]|].
  split; [eexists; split; [vm_compute; reflexivity | reflexivity]|].
  vm_compute. reflexivity.
Qed.

(* ================================================================== *)
(** ** Proofs: the statistics aggregator *)
(* ================================================================== *)

Section AggregatorProofs.
Import YoutubeAnalyzer AggregatorFacts.
Context `{PyLib}.

Lemma fold_add_shift (l : list Z) (a : Z) :
  fold_left Z.add l a = a + Py.sum l.
Proof.
  unfold Py.sum. revert a.
  induction l as [|x l IH]; intro a; simpl.
  - lia.
  - rewrite IH, (IH x). lia.
Qed.

(** The loop of [calculate_video_averages] accumulates the same sums and
    the same list of view counts as the generator expressions of
    [extract_account_metrics]. *)
Lemma loop_counters (videos : list Video.t) (c : Counters) :
  let c' := fold_left process_video videos c in
  total_views c' = total_views c + Py.sum (views_of videos) /\
  total_likes c' = total_likes c + Py.sum (likes_of videos) /\
  total_comments c' = total_comments c + Py.sum (comments_of videos) /\
  view_counts c' = (view_counts c ++ views_of videos)%list.
Proof.
  revert c. induction videos as [|v videos IH]; intro c; simpl.
  - unfold Py.sum; simpl. rewrite app_nil_r. repeat split; lia.
  - destruct (IH (process_video c v)) as (Hv & Hl & Hc & Hvc).
    unfold Py.sum in *; simpl.
    rewrite Hv, Hl, Hc, Hvc; simpl.
    rewrite (fold_add_shift _ (stat Statistics.viewCount _)),
            (fold_add_shift _ (stat Statistics.likeCount _)),
            (fold_add_shift _ (stat Statistics.commentCount _)).
    unfold Py.sum. rewrite <- app_assoc. simpl.
    repeat split; lia.
Qed.

Lemma true_div_nonzero (a b : Z) :
  b <> 0 -> Py.true_div a b = Some (inject_Z a / inject_Z b)%Q.
Proof.
  intro Hb. unfold Py.true_div.
  destruct (Z.eqb_spec b 0); [contradiction | reflexivity].
Qed.

Lemma guarded_division (a b : Z) :
  (if 0 <? b then Py.true_div a b else Some 0%Q) = Some (guarded_ratio a b).
Proof.
  unfold guarded_ratio. destruct (Z.ltb_spec 0 b).
  - apply true_div_nonzero. lia.
  - reflexivity.
Qed.

(** The detailed averages of a non-empty collection, in closed form. *)
Lemma averages_nonempty (v : Video.t) (vs : list Video.t) :
  let videos := v :: vs in
  let n := Z.of_nat (List.length videos) in
  exists a,
    calculate_video_averages videos = Some a /\
    VideoAverages.count a = n /\
    VideoAverages.avg_views a
      = (inject_Z (Py.sum (views_of videos)) / inject_Z n)%Q /\
    VideoAverages.avg_likes a
      = (inject_Z (Py.sum (likes_of videos)) / inject_Z n)%Q /\
    VideoAverages.avg_comments a
      = (inject_Z (Py.sum (comments_of videos)) / inject_Z n)%Q /\
    VideoAverages.engagement_rate a
      = guarded_ratio (Py.sum (likes_of videos) + Py.sum (comments_of videos))
                      (Py.sum (views_of videos)) /\
    VideoAverages.like_to_view_ratio a
      = guarded_ratio (Py.sum (likes_of videos)) (Py.sum (views_of videos)) /\
    VideoAverages.comment_to_view_ratio a
      = guarded_ratio (Py.sum (comments_of videos))
                      (Py.sum (views_of videos)) /\
    Some (VideoAverages.max_views a) = Py.max (views_of videos) /\
    Some (VideoAverages.min_views a) = Py.min (views_of videos).
Proof.
  intros videos n.
  unfold calculate_video_averages. fold videos.
  set (c0 := {| total_views := 0; total_likes := 0; total_comments := 0;
                total_duration_seconds := 0; view_counts := [] |}).
  pose proof (loop_counters videos c0) as HL. cbv zeta in HL.
  destruct HL as (Hv & Hl & Hc & Hvc).
  change (total_views c0) with 0 in Hv. change (total_likes c0) with 0 in Hl.
  change (total_comments c0) with 0 in Hc.
  change (view_counts c0) with (@nil Z) in Hvc.
  rewrite Z.add_0_l in Hv, Hl, Hc. rewrite app_nil_l in Hvc.
  set (c := fold_left process_video videos c0) in *. clearbody c.
  assert (Hn : 0 < n) by (unfold n, videos; simpl; lia).
  assert (Hnb : (0 <? n) = true) by (apply Z.ltb_lt; exact Hn).
  change (Z.of_nat (List.length videos)) with n.
  rewrite Hv, Hl, Hc, Hvc, Hnb.
  rewrite !true_div_nonzero by lia.
  rewrite !guarded_division.
  unfold videos. cbn [Py.bind views_of map Py.max Py.min].
  eexists. split; [reflexivity|].
  repeat split; reflexivity.
Qed.

(** The summary of a non-empty collection, in closed form. *)
Lemma summary_nonempty (v : Video.t) (vs : list Video.t) :
  let videos := v :: vs in
  let n := Z.of_nat (List.length videos) in
  exists s,
    video_metrics_of videos = Some s /\
    VideoMetrics.analyzed_videos_count s = n /\
    VideoMetrics.avg_views s
      = (inject_Z (Py.sum (views_of videos)) / inject_Z n)%Q /\
    VideoMetrics.avg_likes s
      = (inject_Z (Py.sum (likes_of videos)) / inject_Z n)%Q /\
    VideoMetrics.avg_comments s
      = (inject_Z (Py.sum (comments_of videos)) / inject_Z n)%Q /\
    VideoMetrics.engagement_rate s
      = guarded_ratio (Py.sum (likes_of videos) + Py.sum (comments_of videos))
                      (Py.sum (views_of videos)) /\
    Some (VideoMetrics.max_views s) = Py.max (views_of videos) /\
    Some (VideoMetrics.min_views s) = Py.min (views_of videos).
Proof.
  intros videos n.
  unfold video_metrics_of.
  change (Z.of_nat (List.length (v :: vs))) with n.
  assert (Hn : 0 < n) by (unfold n, videos; simpl; lia).
  rewrite !true_div_nonzero by lia. cbn [Py.bind].
  rewrite guarded_division. cbn [Py.bind].
  fold (views_of (v :: vs)) (likes_of (v :: vs)) (comments_of (v :: vs)).
  cbn [views_of map Py.max Py.min Py.bind].
  eexists. split; [reflexivity|].
  repeat split; reflexivity.
Qed.

Lemma extract_with_videos (data : Data.t) (channel : Channel.t)
  (others : list Channel.t) (v : Video.t) (vs : list Video.t)
  (s : VideoMetrics.t) :
  Data.items data = Some (channel :: others) ->
  Data.video_stats data = Some (v :: vs) ->
  video_metrics_of (v :: vs) = Some s ->
  exists metrics,
    extract_account_metrics data = Some metrics /\
    Metrics.video_metrics metrics = Some s.
Proof.
  intros Hi Hv Hs. unfold extract_account_metrics.
  rewrite Hi, Hv, Hs. cbn [Py.bind].
  eexists. split; reflexivity.
Qed.

Lemma extract_without_videos (data : Data.t) :
  Data.video_stats data = Some [] ->
  exists metrics,
    extract_account_metrics data = Some metrics /\
    Metrics.video_metrics metrics = None /\
    Metrics.recent_videos metrics = None.
Proof.
  intro Hv. unfold extract_account_metrics. rewrite Hv.
  destruct (Data.items data) as [[|channel others]|];
    eexists; repeat split; reflexivity.
Qed.

(** No summary exists for the empty collection, whatever is asked of it. *)
Lemma no_summary_of_nothing
  (P : VideoMetrics.t -> VideoAverages.t -> Prop) :
  ~ both_return (data_of []) [] P.
Proof.
  intros (metrics & s & a & He & Hs & _).
  cbv in He. injection He as <-. discriminate Hs.
Qed.

Lemma fold_max_upper (l : list Z) (x : Z) :
  x <= fold_left Z.max l x /\ Forall (fun y => y <= fold_left Z.max l x) l.
Proof.
  revert x. induction l as [|y l IH]; intro x; simpl.
  - split; [lia | constructor].
  - destruct (IH (Z.max x y)) as [Hx Hall]. split; [lia|].
    constructor; [lia | exact Hall].
Qed.

Lemma fold_min_lower (l : list Z) (x : Z) :
  fold_left Z.min l x <= x /\ Forall (fun y => fold_left Z.min l x <= y) l.
Proof.
  revert x. induction l as [|y l IH]; intro x; simpl.
  - split; [lia | constructor].
  - destruct (IH (Z.min x y)) as [Hx Hall]. split; [lia|].
    constructor; [lia | exact Hall].
Qed.

Lemma sum_between (l : list Z) (lo hi : Z) :
  Forall (fun y => lo <= y <= hi) l ->
  lo * Z.of_nat (List.length l) <= Py.sum l <= hi * Z.of_nat (List.length l).
Proof.
  induction 1 as [|y l Hy _ IH].
  - unfold Py.sum; simpl; lia.
  - unfold Py.sum in *. cbn [fold_left List.length].
    rewrite fold_add_shift. unfold Py.sum. lia.
Qed.

(** The sum of a non-empty list lies between its length times its
    minimum and its length times its maximum. *)
Lemma sum_between_extrema (x : Z) (l : list Z) (lo hi : Z) :
  Py.min (x :: l) = Some lo -> Py.max (x :: l) = Some hi ->
  lo * Z.of_nat (List.length (x :: l)) <= Py.sum (x :: l)
  <= hi * Z.of_nat (List.length (x :: l)).
Proof.
  cbn [Py.min Py.max]. intros [= <-] [= <-].
  destruct (fold_max_upper l x) as [Hx Hmax].
  destruct (fold_min_lower l x) as [Hx' Hmin].
  apply sum_between. constructor; [lia|].
  rewrite Forall_forall in *. intros y Hy.
  specialize (Hmax y Hy). specialize (Hmin y Hy). lia.
Qed.

Lemma mean_between (total n lo hi : Z) :
  0 < n -> lo * n <= total <= hi * n ->
  (inject_Z lo <= inject_Z total / inject_Z n)%Q /\
  (inject_Z total / inject_Z n <= inject_Z hi)%Q.
Proof.
  intros Hn [Hlo Hhi].
  assert (Hq : (0 < inject_Z n)%Q)
    by (change 0%Q with (inject_Z 0); rewrite <- Zlt_Qlt; exact Hn).
  split.
  - apply Qle_shift_div_l; [exact Hq|].
    rewrite <- inject_Z_mult, <- Zle_Qle. exact Hlo.
  - apply Qle_shift_div_r; [exact Hq|].
    rewrite <- inject_Z_mult, <- Zle_Qle. exact Hhi.
Qed.





End AggregatorProofs.

Section AggregatorClaims.
Import YoutubeAnalyzer AggregatorFacts.
Context `{PyLib}.

(** C2, as amended.  For the empty video collection
    [calculate_video_averages] returns the all-zero result, and
    [extract_account_metrics] returns without an exception but sets
    neither [video_metrics] nor [recent_videos]: its summary is absent,
    not zero.  Neither divides. *)
Theorem empty_collection_results (items : option (list Channel.t)) :
  calculate_video_averages [] = Some zero_averages /\
  exists metrics,
    extract_account_metrics
      {| Data.items := items; Data.video_stats := Some [] |} = Some metrics /\
    Metrics.video_metrics metrics = None /\
    Metrics.recent_videos metrics = None.
Proof.
  split; [reflexivity|].
  apply extract_without_videos. reflexivity.
Qed.


(** With exact division the mean of the views of a non-empty collection
    lies between the extrema, in both summaries. *)
Lemma exact_mean_between_extrema (data : Data.t) (channel : Channel.t)
  (others : list Channel.t) (videos : list Video.t) :
  Data.items data = Some (channel :: others) ->
  Data.video_stats data = Some videos ->
  videos <> [] ->
  both_return data videos mean_between_extrema.
Proof.
  intros Hi Hv Hne. destruct videos as [|v vs]; [contradiction|].
  destruct (averages_nonempty v vs)
    as (a & Ha & _ & Havg & _ & _ & _ & _ & _ & Hmax & Hmin).
  destruct (summary_nonempty v vs)
    as (s & Hs & _ & Havg' & _ & _ & _ & Hmax' & Hmin').
  destruct (extract_with_videos data channel others v vs s Hi Hv Hs)
    as (metrics & Hm & Hvm).
  exists metrics, s, a.
  split; [exact Hm|]. split; [exact Hvm|]. split; [exact Ha|].
  unfold mean_between_extrema. rewrite Havg, Havg'.
  assert (Hn : 0 < Z.of_nat (List.length (v :: vs))) by (simpl; lia).
  assert (Hlen : List.length (views_of (v :: vs)) = List.length (v :: vs))
    by (unfold views_of; apply length_map).
  cbn [views_of map] in Hmin, Hmax, Hmin', Hmax', Hlen.
  pose proof (sum_between_extrema _ _ _ _ (eq_sym Hmin') (eq_sym Hmax')) as Bs.
  pose proof (sum_between_extrema _ _ _ _ (eq_sym Hmin) (eq_sym Hmax)) as Ba.
  rewrite Hlen in Bs, Ba.
  destruct (mean_between _ _ _ _ Hn Bs) as [Bs1 Bs2].
  destruct (mean_between _ _ _ _ Hn Ba) as [Ba1 Ba2].
  cbn [views_of map].
  split; [exact Bs1|]. split; [exact Bs2|]. split; [exact Ba1 | exact Ba2].
Qed.



End AggregatorClaims.

Module AggregatorRuns.
Import YoutubeAnalyzer AggregatorFacts.

(** Three videos: views 100, 50, 10; likes 10, 5, 1; comments 2, 1, 0. *)
Definition three : list Video.t :=
  [a_video 100 10 2; a_video 50 5 1; a_video 10 1 0].



End AggregatorRuns.

(** Three videos with views 100, 50, 10, likes 10, 5, 1 and comments 2,
    1, 0: avg_views 160/3, max_views 100, min_views 10 and
    engagement_rate (16 + 3)/160. *)
Example three_videos_scenario :
  exists a,
    YoutubeAnalyzer.calculate_video_averages (H := CPython.lib)
      AggregatorRuns.three = Some a /\
    (YoutubeAnalyzer.VideoAverages.avg_views a == 160 # 3)%Q /\
    YoutubeAnalyzer.VideoAverages.max_views a = 100 /\
    YoutubeAnalyzer.VideoAverages.min_views a = 10 /\
    (YoutubeAnalyzer.VideoAverages.engagement_rate a == 19 # 160)%Q.
Proof.
  eexists. split; [reflexivity|]. repeat split; reflexivity.
Qed.

(** C2 as stated fails: for the empty collection the summary of
    [extract_account_metrics] is not an all-zero result. *)
Lemma empty_collection_summary_not_zero :
  ~ AggregatorFacts.both_return (H := CPython.lib)
      (AggregatorFacts.data_of []) []
      (fun s a => AggregatorFacts.zero_summary s /\
                  a = AggregatorFacts.zero_averages).
Proof. apply no_summary_of_nothing. Qed.







(* ================================================================== *)
(** ** Proofs: the temporal filter *)
(* ================================================================== *)

Section FilterProofs.
Import YoutubeAnalyzer FilterFacts.
Context `{PyLib} `{World}.

Lemma filter_keeps_all {A : Type} (l : list A) : filter (fun _ => true) l = l.
Proof.
  induction l as [|x l IH]; simpl; [reflexivity | now rewrite IH].
Qed.

Lemma start_date_str_unparsable (start_date : option string) :
  unparsable start_date -> start_date_str start_date = None.
Proof.
  intros (s & -> & Hs). unfold start_date_str. now rewrite Hs.
Qed.

Lemma end_date_str_unparsable (end_date : option string) :
  unparsable end_date -> end_date_str end_date = None.
Proof.
  intros (s & -> & Hs). unfold end_date_str. now rewrite Hs.
Qed.

(** With no usable constraint the loop keeps every item. *)
Lemma filter_without_constraints (items : list PlaylistItem.t) :
  filter (meets_criteria None None None) items = items.
Proof. apply filter_keeps_all. Qed.

(** [meets_criteria] is the conjunction of the constraints present. *)
Lemma meets_criteria_spec (cutoff start_ end_ : option string)
  (item : PlaylistItem.t) :
  meets_criteria cutoff start_ end_ item = true <->
  (forall c, cutoff = Some c ->
     String.ltb (PlaylistItem.publishedAt item) c = false) /\
  (forall s, start_ = Some s ->
     String.ltb (PlaylistItem.publishedAt item) s = false) /\
  (forall e, end_ = Some e ->
     String.ltb e (PlaylistItem.publishedAt item) = false).
Proof.
  unfold meets_criteria.
  destruct cutoff as [c|], start_ as [s|], end_ as [e|];
    repeat match goal with
           | |- context [String.ltb ?a ?b] => destruct (String.ltb a b) eqn:?
           end;
    split;
    try (intros _; repeat split; intros ? [= <-]; assumption);
    try discriminate;
    try reflexivity;
    try (intros (Hc & Hs & He);
         first [ specialize (Hc _ eq_refl); congruence
               | specialize (Hs _ eq_refl); congruence
               | specialize (He _ eq_refl); congruence ]);
    try (intros _; repeat split; intros ? [=]).
Qed.

Lemma start_date_str_spec (start_date : option string) (x : string) :
  start_date_str start_date = Some x <->
  exists s y m d, start_date = Some s /\ strptime s = Some (y, m, d) /\
                  x = isoformat (midnight y m d) ++ "Z".
Proof.
  unfold start_date_str, midnight. split.
  - destruct start_date as [s|]; [|discriminate].
    destruct (strptime s) as [[[y m] d]|] eqn:Hs; [|discriminate].
    intros [= <-]. exists s, y, m, d. repeat split. exact Hs.
  - intros (s & y & m & d & -> & Hs & ->). now rewrite Hs.
Qed.

Lemma end_date_str_spec (end_date : option string) (x : string) :
  end_date_str end_date = Some x <->
  exists s y m d, end_date = Some s /\ strptime s = Some (y, m, d) /\
                  x = isoformat (end_of_day y m d) ++ "Z".
Proof.
  unfold end_date_str, end_of_day. split.
  - destruct end_date as [s|]; [|discriminate].
    destruct (strptime s) as [[[y m] d]|] eqn:Hs; [|discriminate].
    intros [= <-]. exists s, y, m, d. repeat split. exact Hs.
  - intros (s & y & m & d & -> & Hs & ->). now rewrite Hs.
Qed.

(** The filter in one equation: the cutoff is computed (or raises), and
    the items meeting the criteria are kept. *)
Lemma filter_videos_by_date_eq (days_ago : option Z)
  (start_date end_date : option string) (items : list PlaylistItem.t) :
  filter_videos_by_date days_ago start_date end_date items =
  (cutoff_date_str <-
     (match days_ago with
      | Some n => cutoff <- cutoff_date_isoformat n ;; Some (Some (cutoff ++ "Z"))
      | None => Some None
      end) ;;
   Some (filter (meets_criteria cutoff_date_str (start_date_str start_date)
                                (end_date_str end_date)) items)).
Proof.
  unfold filter_videos_by_date.
  destruct days_ago, start_date, end_date; try reflexivity.
  cbn [Py.bind start_date_str end_date_str].
  now rewrite filter_without_constraints.
Qed.

End FilterProofs.

Section FilterClaims.
Import YoutubeAnalyzer FilterFacts.
Context `{PyLib} `{World}.

(** C10.  With no relative window, no start and no end, the temporal
    filter returns its input list unchanged and in its order. *)
Theorem no_constraint_identity (items : list PlaylistItem.t) :
  filter_videos_by_date None None None items = Some items.
Proof. reflexivity. Qed.

(** C1, as amended.  The temporal filter does not reject a date string
    that does not parse: it drops that constraint and filters by the
    others, as if the date had not been given.  The rejection is made by
    the HTTP handler: [analyze_channel] answers 400 to a non-empty
    [start_date] or [end_date] that does not parse, before it calls the
    analysis. *)
Theorem unparsable_date_handling (days_ago : option Z)
  (start_date end_date : option string) (items : list PlaylistItem.t) :
  (unparsable start_date ->
   filter_videos_by_date days_ago start_date end_date items
   = filter_videos_by_date days_ago None end_date items) /\
  (unparsable end_date ->
   filter_videos_by_date days_ago start_date end_date items
   = filter_videos_by_date days_ago start_date None items) /\
  (forall args : App.Args.t,
     App.Args.start_date args = start_date ->
     App.Args.end_date args = end_date ->
     (Py.truthy_opt start_date = true /\ unparsable start_date) \/
     (Py.truthy_opt end_date = true /\ unparsable end_date) ->
     exists message, App.analyze_channel_rejection args = Some (400, message)).
Proof.
  split; [|split].
  - intro Hs. rewrite !filter_videos_by_date_eq.
    now rewrite (start_date_str_unparsable _ Hs).
  - intro He. rewrite !filter_videos_by_date_eq.
    now rewrite (end_date_str_unparsable _ He).
  - intros args Hsd Hed Hbad. unfold App.analyze_channel_rejection.
    destruct (negb _); [eexists; reflexivity|].
    destruct (App.rejects (App.Args.days args) py_int);
      [eexists; reflexivity|].
    rewrite Hsd, Hed.
    destruct (App.rejects start_date strptime) eqn:Rs; [eexists; reflexivity|].
    destruct (App.rejects end_date strptime) eqn:Re; [eexists; reflexivity|].
    exfalso. destruct Hbad as [[Ht (s & -> & Hs)] | [Ht (s & -> & Hs)]].
    + destruct s; [discriminate Ht|]. cbn in Rs. rewrite Hs in Rs.
      discriminate Rs.
    + destruct s; [discriminate Ht|]. cbn in Re. rewrite Hs in Re.
      discriminate Re.
Qed.

(** The constraints present are applied conjunctively: when the filter
    returns, it keeps exactly the items inside the window. *)
Lemma filter_keeps_window (days_ago : option Z)
  (start_date end_date : option string) (items out : list PlaylistItem.t) :
  filter_videos_by_date days_ago start_date end_date items = Some out ->
  forall item,
    In item out <->
    In item items /\ within_window days_ago start_date end_date item.
Proof.
  rewrite filter_videos_by_date_eq. intros Hout item.
  assert (Hcut : exists cutoff_date_str,
             out = filter (meets_criteria cutoff_date_str
                             (start_date_str start_date)
                             (end_date_str end_date)) items /\
             forall c, cutoff_date_str = Some c <->
                       exists n cutoff, days_ago = Some n /\
                         cutoff_date_isoformat n = Some cutoff /\
                         c = cutoff ++ "Z").
  { destruct days_ago as [n|].
    - destruct (cutoff_date_isoformat n) as [cutoff|] eqn:Hc;
        [|discriminate Hout].
      cbn [Py.bind] in Hout. injection Hout as <-.
      eexists. split; [reflexivity|]. intro c. split.
      + intros [= <-]. exists n, cutoff. repeat split. exact Hc.
      + intros (n' & cutoff' & [= <-] & Hc' & ->). congruence.
    - cbn [Py.bind] in Hout. injection Hout as <-.
      eexists. split; [reflexivity|]. intro c. split; [discriminate|].
      intros (n' & cutoff' & Hn & _). discriminate Hn. }
  destruct Hcut as (cutoff_date_str & -> & Hcutoff).
  rewrite filter_In, meets_criteria_spec. unfold within_window.
  split; intros [Hin (Hc & Hs & He)]; (split; [exact Hin|]);
    (split; [|split]).
  - intros n cutoff Hn Hiso. apply Hc. apply Hcutoff.
    exists n, cutoff. repeat split; assumption.
  - intros s y m d Hsd Hp. apply Hs. apply start_date_str_spec.
    exists s, y, m, d. repeat split; assumption.
  - intros s y m d Hsd Hp. apply He. apply end_date_str_spec.
    exists s, y, m, d. repeat split; assumption.
  - intros c Hcs. apply Hcutoff in Hcs.
    destruct Hcs as (n & cutoff & Hn & Hiso & ->). eapply Hc; eassumption.
  - intros x Hx. apply start_date_str_spec in Hx.
    destruct Hx as (s & y & m & d & Hsd & Hp & ->). eapply Hs; eassumption.
  - intros x Hx. apply end_date_str_spec in Hx.
    destruct Hx as (s & y & m & d & Hsd & Hp & ->). eapply He; eassumption.
Qed.

End FilterClaims.

(** C8.  The temporal filter keeps exactly the items that satisfy every
    constraint present, the end date being moved to 23:59:59 of its day;
    for the window from 2024-01-01 to 2024-01-31 it admits the item
    published at 2024-01-15T00:00:00Z and rejects the one published at
    2024-02-01T00:00:00Z. *)
Theorem window_is_conjunctive :
  (forall (L : PyLib) (W : YoutubeAnalyzer.World) (days_ago : option Z)
          (start_date end_date : option string)
          (items out : list YoutubeAnalyzer.PlaylistItem.t),
     YoutubeAnalyzer.filter_videos_by_date days_ago start_date end_date items
     = Some out ->
     forall item,
       In item out <->
       In item items /\
       FilterFacts.within_window days_ago start_date end_date item) /\
  (forall W : YoutubeAnalyzer.World,
     YoutubeAnalyzer.end_date_str (H := CPython.lib) (Some "2024-01-31")
     = Some "2024-01-31T23:59:59Z" /\
     YoutubeAnalyzer.filter_videos_by_date (H := CPython.lib) None
       (Some "2024-01-01") (Some "2024-01-31")
       [FilterFacts.mid_january; FilterFacts.first_of_february]
     = Some [FilterFacts.mid_january]).
Proof.
  split.
  - intros L W. apply filter_keeps_window.
  - intro W. split; reflexivity.
Qed.

Lemma window_is_conjunctive_witness :
  In FilterFacts.mid_january [FilterFacts.mid_january] <->
  In FilterFacts.mid_january
     [FilterFacts.mid_january; FilterFacts.first_of_february] /\
  FilterFacts.within_window (H := CPython.lib) (H0 := BatchFacts.two_namesakes)
    None (Some "2024-01-01") (Some "2024-01-31") FilterFacts.mid_january.
Proof.
  apply (proj1 window_is_conjunctive CPython.lib BatchFacts.two_namesakes
           None (Some "2024-01-01") (Some "2024-01-31")
           [FilterFacts.mid_january; FilterFacts.first_of_february]
           [FilterFacts.mid_january]).
  reflexivity.
Defined.

(** C1 as stated fails: given a start date that does not parse, the
    filter returns every item and the retrieval returns its data; no
    error reaches the caller. *)
Lemma unparsable_start_date_not_rejected :
  FilterFacts.unparsable (H := CPython.lib) (Some "01/02/2024") /\
  YoutubeAnalyzer.filter_videos_by_date (H := CPython.lib)
    (H0 := BatchFacts.two_namesakes) None (Some "01/02/2024") None
    [FilterFacts.mid_january; FilterFacts.first_of_february]
  = Some [FilterFacts.mid_january; FilterFacts.first_of_february] /\
  YoutubeAnalyzer.retrieve_youtube_data (H := CPython.lib)
    (H0 := BatchFacts.two_namesakes) (Some "UC1") None None
    None (Some "01/02/2024") None
  <> None.
Proof.
  split; [|split].
  - exists "01/02/2024". split; reflexivity.
  - reflexivity.
  - vm_compute. discriminate.
Qed.

Lemma unparsable_date_handling_witness :
  YoutubeAnalyzer.filter_videos_by_date (H := CPython.lib)
    (H0 := BatchFacts.two_namesakes) None (Some "01/02/2024")
    (Some "2024-01-31")
    [FilterFacts.mid_january; FilterFacts.first_of_february]
  = YoutubeAnalyzer.filter_videos_by_date (H := CPython.lib)
      (H0 := BatchFacts.two_namesakes) None None (Some "2024-01-31")
      [FilterFacts.mid_january; FilterFacts.first_of_february].
Proof.
  apply (proj1 (unparsable_date_handling (H := CPython.lib)
                  (H0 := BatchFacts.two_namesakes) None (Some "01/02/2024")
                  (Some "2024-01-31")
                  [FilterFacts.mid_january; FilterFacts.first_of_february])).
  exists "01/02/2024". split; reflexivity.
Defined.

(* ================================================================== *)
(** ** Proofs: the duration parser *)
(* ================================================================== *)

(** The aggregation never raises: every collection has its averages. *)
Lemma calculate_video_averages_total `{PyLib}
  (videos : list YoutubeAnalyzer.Video.t) :
  exists a, YoutubeAnalyzer.calculate_video_averages videos = Some a.
Proof.
  destruct videos as [|v vs].
  - eexists. reflexivity.
  - destruct (averages_nonempty v vs) as (a & Ha & _). exists a. exact Ha.
Qed.



(* ================================================================== *)
(** ** Proofs: the link normalizer *)
(* ================================================================== *)

(** A URL without the redirect marker is returned unchanged. *)
Lemma extract_direct_url_other `{PyLib} (url : string) :
  Py.contains "youtube.com/redirect" url = false ->
  YoutubeAnalyzer.extract_direct_url url = url.
Proof.
  intro Hno. unfold YoutubeAnalyzer.extract_direct_url. now rewrite Hno.
Qed.

(** C4, as amended.  [extract_direct_url] applied twice equals
    [extract_direct_url] applied once whenever the URL it resolves to
    does not contain [youtube.com/redirect] itself. *)
Theorem extract_direct_url_idempotent_when_resolved `{PyLib} (url : string) :
  Py.contains "youtube.com/redirect" (YoutubeAnalyzer.extract_direct_url url)
  = false ->
  YoutubeAnalyzer.extract_direct_url (YoutubeAnalyzer.extract_direct_url url)
  = YoutubeAnalyzer.extract_direct_url url.
Proof. apply extract_direct_url_other. Qed.

(** The redirect of the specification's scenario resolves to its
    target. *)
Example redirect_scenario :
  YoutubeAnalyzer.extract_direct_url (H := CPython.lib)
    "https://www.youtube.com/redirect?q=https%3A%2F%2Fexample.com"
  = "https://example.com".
Proof. reflexivity. Qed.

Lemma extract_direct_url_idempotent_when_resolved_witness :
  YoutubeAnalyzer.extract_direct_url (H := CPython.lib)
    (YoutubeAnalyzer.extract_direct_url (H := CPython.lib)
       "https://www.youtube.com/redirect?q=https%3A%2F%2Fexample.com")
  = YoutubeAnalyzer.extract_direct_url (H := CPython.lib)
      "https://www.youtube.com/redirect?q=https%3A%2F%2Fexample.com".
Proof.
  apply (extract_direct_url_idempotent_when_resolved (H := CPython.lib)).
  reflexivity.
Defined.

(** C4 as stated fails: a redirect whose target is another redirect is
    unwrapped once by each application. *)
Lemma nested_redirect_not_idempotent :
  YoutubeAnalyzer.extract_direct_url (H := CPython.lib)
    "https://www.youtube.com/redirect?q=https://www.youtube.com/redirect?q=https://example.com"
  = "https://www.youtube.com/redirect?q=https://example.com" /\
  YoutubeAnalyzer.extract_direct_url (H := CPython.lib)
    (YoutubeAnalyzer.extract_direct_url (H := CPython.lib)
       "https://www.youtube.com/redirect?q=https://www.youtube.com/redirect?q=https://example.com")
  = "https://example.com" /\
  YoutubeAnalyzer.extract_direct_url (H := CPython.lib)
    (YoutubeAnalyzer.extract_direct_url (H := CPython.lib)
       "https://www.youtube.com/redirect?q=https://www.youtube.com/redirect?q=https://example.com")
  <> YoutubeAnalyzer.extract_direct_url (H := CPython.lib)
       "https://www.youtube.com/redirect?q=https://www.youtube.com/redirect?q=https://example.com".
Proof.
  split; [reflexivity|]. split; [reflexivity|].
  vm_compute. discriminate.
Qed.

(* ================================================================== *)
(** ** Proofs: the batch orchestrator and the export *)
(* ================================================================== *)

Section DictProofs.
Import BatchFacts.
Context {V : Type}.

Lemma keys_setitem (k : string) (v : V) (d : Py.dict V) :
  Py.keys (Py.setitem k v d) = add_key k (Py.keys d).
Proof.
  unfold add_key, Py.keys. induction d as [|[k' v'] d IH]; simpl.
  - reflexivity.
  - destruct (String.eqb k' k); simpl; [reflexivity|].
    rewrite IH. now destruct (existsb _ (map fst d)).
Qed.

Lemma in_setitem (k : string) (v : V) (d : Py.dict V) (k0 : string) (v0 : V) :
  In (k0, v0) (Py.setitem k v d) -> (k0 = k /\ v0 = v) \/ In (k0, v0) d.
Proof.
  induction d as [|[k' v'] d IH]; simpl.
  - intros [[= <- <-]|[]]. now left.
  - destruct (String.eqb_spec k' k) as [->|Hne]; simpl.
    + intros [[= <- <-]|Hin]; [now left | right; now right].
    + intros [Heq|Hin]; [right; now left|].
      destruct (IH Hin) as [Hnew|Hold]; [now left | right; now right].
Qed.

End DictProofs.

Section OrderProofs.
Import BatchFacts.







End OrderProofs.

Section BatchProofs.
Import YoutubeAnalyzer BatchFacts.
Context `{PyLib} `{World}.

(** Without an identifier there is no request and no result. *)
Lemma analyze_needs_identifier (days_ago : option Z)
  (start_date end_date : option string) (extract_links : bool) :
  analyze_youtube_channel None None None days_ago start_date end_date
    extract_links = Some None.
Proof. reflexivity. Qed.

Lemma video_metrics_of_total (v : Video.t) (vs : list Video.t) :
  exists s, video_metrics_of (v :: vs) = Some s.
Proof.
  destruct (summary_nonempty v vs) as (s & Hs & _). exists s. exact Hs.
Qed.

(** [extract_account_metrics] never raises, and it reports the channel
    whenever the data has one. *)
Lemma extract_account_metrics_total (data : Data.t) :
  exists metrics,
    extract_account_metrics data = Some metrics /\
    forall channel others,
      Data.items data = Some (channel :: others) ->
      Metrics.channel_info metrics = Some (channel_info_of channel).
Proof.
  unfold extract_account_metrics.
  destruct (Data.items data) as [[|channel others]|].
  - eexists. split; [reflexivity | discriminate].
  - destruct (Data.video_stats data) as [[|v vs]|].
    + eexists. split; [reflexivity|]. now intros c o [= <- <-].
    + destruct (video_metrics_of_total v vs) as (s & ->). cbn [Py.bind].
      eexists. split; [reflexivity|]. now intros c o [= <- <-].
    + eexists. split; [reflexivity|]. now intros c o [= <- <-].
  - eexists. split; [reflexivity | discriminate].
Qed.

(** The analysis of one channel never raises, and a result it returns
    carries the channel's information. *)
Lemma analyze_youtube_channel_total (channel_id username handle : option string)
  (days_ago : option Z) (start_date end_date : option string)
  (extract_links : bool) :
  exists outcome,
    analyze_youtube_channel channel_id username handle days_ago start_date
      end_date extract_links = Some outcome /\
    forall result, outcome = Some result ->
      exists info,
        Metrics.channel_info (AnalysisResult.metrics result) = Some info.
Proof.
  unfold analyze_youtube_channel.
  destruct (retrieve_youtube_data _ _ _ _ _ _) as [data|];
    [|eexists; split; [reflexivity | discriminate]].
  destruct (extract_account_metrics_total data) as (metrics & -> & Hinfo).
  destruct (Data.items data) as [[|channel others]|];
    try (eexists; split; [reflexivity | discriminate]).
  specialize (Hinfo channel others eq_refl). cbn [Py.bind].
  assert (Hav : exists metrics',
             match Data.video_stats data with
             | Some videos =>
                 video_averages <- calculate_video_averages videos ;;
                 Some (set_video_averages metrics video_averages)
             | None => Some metrics
             end = Some metrics' /\
             Metrics.channel_info metrics' = Some (channel_info_of channel)).
  { destruct (Data.video_stats data) as [videos|].
    - destruct (calculate_video_averages_total videos) as (a & ->).
      eexists. split; [reflexivity | exact Hinfo].
    - eexists. split; [reflexivity | exact Hinfo]. }
  destruct Hav as (metrics' & -> & Hinfo'). cbn [Py.bind].
  destruct (extract_links && PLAYWRIGHT_AVAILABLE).
  - destruct (get_channel_links_playwright channel_id username handle)
      as [[[[[|l ls]|]]|]|];
      (eexists; split; [reflexivity|]; intros result [= <-];
       exists (channel_info_of channel); exact Hinfo').
  - eexists; split; [reflexivity|]. intros result [= <-].
    exists (channel_info_of channel). exact Hinfo'.
Qed.

(** What the loop of [analyze_search_results] maintains. *)
Lemma analyze_loop (days_ago : option Z) (start_date end_date : option string)
  (extract_links : bool) (channels : list SearchChannel.t)
  (results : Py.dict AnalysisResult.t) :
  exists results',
    fold_left
      (fun results channel =>
         results <- results ;;
         analyze_one days_ago start_date end_date extract_links results channel)
      channels (Some results) = Some results' /\
    Py.keys results'
    = fold_left (fun ks k => add_key k ks)
        (analyzed_ids channels days_ago start_date end_date extract_links)
        (Py.keys results) /\
    forall key result, In (key, result) results' ->
      In (key, result) results \/
      analyze_youtube_channel (Some key) None None days_ago start_date end_date
        extract_links = Some (Some result).
Proof.
  revert results. induction channels as [|channel channels IH]; intro results.
  - exists results. repeat split. intros key result Hin. now left.
  - cbn [fold_left Py.bind analyzed_ids flat_map].
    unfold analyze_one at 2.
    destruct (analyze_youtube_channel_total (SearchChannel.channel_id channel)
                None None days_ago start_date end_date extract_links)
      as (outcome & Ho & _).
    rewrite Ho. cbn [Py.bind].
    destruct (SearchChannel.channel_id channel) as [key|] eqn:Hkey.
    + rewrite Ho. destruct outcome as [result|].
      * destruct (IH (Py.setitem key result results)) as (r' & Hr & Hk & Hv).
        exists r'. split; [exact Hr|]. split.
        -- rewrite Hk, keys_setitem. reflexivity.
        -- intros k0 v0 Hin. destruct (Hv k0 v0 Hin) as [Hold|Hnew];
             [|now right].
           destruct (in_setitem _ _ _ _ _ Hold) as [[-> ->]|Hin'];
             [right; exact Ho | now left].
      * destruct (IH results) as (r' & Hr & Hk & Hv).
        exists r'. repeat split; assumption.
    + rewrite analyze_needs_identifier in Ho. injection Ho as <-.
      destruct (IH results) as (r' & Hr & Hk & Hv).
      exists r'. repeat split; assumption.
Qed.


End BatchProofs.




(* ================================================================== *)
(** ** Further properties: identifiers and requests *)
(* ================================================================== *)

Section IdentifierProofs.
Import YoutubeAnalyzer.
Context `{PyLib} `{World}.

Lemma select_request_none (channel_id username handle : option string) :
  select_request channel_id username handle = None <->
  Py.truthy_opt channel_id = false /\ Py.truthy_opt username = false /\
  Py.truthy_opt handle = false.
Proof.
  destruct channel_id as [[|a i]|], username as [[|b u]|],
    handle as [[|c h]|]; simpl; split;
    try discriminate; try reflexivity; try (intros (? & ? & ?); discriminate);
    try (intros _; repeat split; reflexivity).
Qed.

(** X1.  When none of channel id, username and handle is given, an empty
    string counting as not given, [retrieve_youtube_data] returns [None],
    [analyze_youtube_channel] returns [None] and the scraper is given no
    page, whatever the provider holds; and only then is no request
    selected. *)
Theorem no_identifier_no_data (channel_id username handle : option string)
  (days_ago : option Z) (start_date end_date : option string)
  (extract_links : bool) :
  (select_request channel_id username handle = None <->
   Py.truthy_opt channel_id = false /\ Py.truthy_opt username = false /\
   Py.truthy_opt handle = false) /\
  (select_request channel_id username handle = None ->
   retrieve_youtube_data channel_id username handle days_ago start_date
     end_date = None /\
   analyze_youtube_channel channel_id username handle days_ago start_date
     end_date extract_links = Some None /\
   links_page_url channel_id username handle = None).
Proof.
  split; [apply select_request_none|].
  intro Hnone. assert (Hr : retrieve_youtube_data channel_id username handle
                              days_ago start_date end_date = None).
  { unfold retrieve_youtube_data. now rewrite Hnone. }
  split; [exact Hr|]. split.
  - unfold analyze_youtube_channel. now rewrite Hr.
  - apply select_request_none in Hnone. destruct Hnone as (Hc & Hu & Hh).
    destruct channel_id as [[|a i]|], username as [[|b u]|],
      handle as [[|c h]|]; try discriminate; reflexivity.
Qed.

(** X2.  The identifiers are used in the order id, username, handle, and
    the page given to the scraper is the page of the identifier that the
    provider is asked about. *)
Theorem identifier_precedence (channel_id username handle : option string) :
  match select_request channel_id username handle with
  | Some (ById i) =>
      channel_id = Some i /\
      links_page_url channel_id username handle
      = Some ("https://www.youtube.com/channel/" ++ i ++ "/about")
  | Some (ForUsername u) =>
      Py.truthy_opt channel_id = false /\ username = Some u /\
      links_page_url channel_id username handle
      = Some ("https://www.youtube.com/user/" ++ u ++ "/about")
  | Some (ForHandle h) =>
      Py.truthy_opt channel_id = false /\ Py.truthy_opt username = false /\
      (handle = Some h \/ handle = Some (String "@" h)) /\
      links_page_url channel_id username handle
      = Some ("https://www.youtube.com/@" ++ h ++ "/about")
  | None =>
      links_page_url channel_id username handle = None
  end.
Proof.
  destruct channel_id as [[|a i]|], username as [[|b u]|],
    handle as [[|c h]|]; cbn [select_request links_page_url Py.truthy_opt
                                Py.truthy];
    try (repeat split; reflexivity).
  all: cbn [Py.startswith]; destruct (Ascii.eqb_spec "@"%char c) as [<-|Hne];
    cbn [andb]; repeat split; auto.
Qed.

(** X3.  A handle written with its leading [@] and the same handle
    written without it give the same retrieval and the same page for the
    scraper. *)
Theorem handle_with_or_without_at (channel_id username : option string)
  (handle : string) (days_ago : option Z) (start_date end_date : option string) :
  Py.truthy handle = true ->
  Py.startswith "@" handle = false ->
  retrieve_youtube_data channel_id username (Some (String "@" handle))
    days_ago start_date end_date
  = retrieve_youtube_data channel_id username (Some handle)
      days_ago start_date end_date /\
  links_page_url channel_id username (Some (String "@" handle))
  = links_page_url channel_id username (Some handle).
Proof.
  intros Ht Hs. destruct handle as [|c h]; [discriminate Ht|].
  assert (Hsel : select_request channel_id username (Some (String "@" (String c h)))
                 = select_request channel_id username (Some (String c h))).
  { destruct channel_id as [[|a i]|], username as [[|b u]|];
      cbn [select_request]; try reflexivity;
      rewrite Hs; reflexivity. }
  split.
  - unfold retrieve_youtube_data. now rewrite Hsel.
  - destruct channel_id as [[|a i]|], username as [[|b u]|];
      cbn [links_page_url]; try reflexivity;
      rewrite Hs; reflexivity.
Qed.

End IdentifierProofs.

Lemma handle_with_or_without_at_witness :
  YoutubeAnalyzer.retrieve_youtube_data (H := CPython.lib)
    (H0 := BatchFacts.two_namesakes) None None (Some "@somebody")
    None None None
  = YoutubeAnalyzer.retrieve_youtube_data (H := CPython.lib)
      (H0 := BatchFacts.two_namesakes) None None (Some "somebody")
      None None None.
Proof.
  apply (proj1 (handle_with_or_without_at (H := CPython.lib)
                  (H0 := BatchFacts.two_namesakes) None None "somebody"
                  None None None eq_refl eq_refl)).
Defined.

Lemma no_identifier_no_data_witness :
  YoutubeAnalyzer.analyze_youtube_channel (H := CPython.lib)
    (H0 := BatchFacts.two_namesakes) (Some "") None (Some "")
    None None None true = Some None.
Proof.
  apply (proj2 (no_identifier_no_data (H := CPython.lib)
                  (H0 := BatchFacts.two_namesakes) (Some "") None (Some "")
                  None None None true)).
  reflexivity.
Defined.

(* ================================================================== *)
(** ** Further properties: the batches of video ids *)
(* ================================================================== *)

Lemma chunks_concat (fuel : nat) (video_ids : list string) :
  (List.length video_ids <= fuel)%nat ->
  List.concat (YoutubeAnalyzer.chunks_of_50 fuel video_ids) = video_ids.
Proof.
  revert video_ids. induction fuel as [|fuel IH]; intros video_ids Hlen.
  - destruct video_ids; [reflexivity | simpl in Hlen; lia].
  - destruct video_ids as [|x rest]; [reflexivity|].
    cbn [YoutubeAnalyzer.chunks_of_50 List.concat].
    rewrite IH.
    + apply firstn_skipn.
    + rewrite length_skipn. simpl in *. lia.
Qed.

Lemma chunks_sizes (fuel : nat) (video_ids : list string) :
  Forall (fun chunk => (1 <= List.length chunk <= 50)%nat)
         (YoutubeAnalyzer.chunks_of_50 fuel video_ids).
Proof.
  revert video_ids. induction fuel as [|fuel IH]; intro video_ids.
  - constructor.
  - destruct video_ids as [|x rest]; [constructor|].
    cbn [YoutubeAnalyzer.chunks_of_50]. constructor; [|apply IH].
    rewrite length_firstn. cbn [List.length]. lia.
Qed.

(** X4.  The video ids are sent to the provider in batches that hold
    between 1 and 50 ids each and that, put end to end, are the ids in
    their order: no id is dropped, repeated or moved. *)
Theorem chunks_of_50_partition (video_ids : list string) :
  let chunks :=
    YoutubeAnalyzer.chunks_of_50 (List.length video_ids) video_ids in
  List.concat chunks = video_ids /\
  Forall (fun chunk => (1 <= List.length chunk <= 50)%nat) chunks.
Proof.
  split; [apply chunks_concat; lia | apply chunks_sizes].
Qed.

(* ================================================================== *)
(** ** Further properties: the analysis of one channel *)
(* ================================================================== *)

Section AnalysisProofs.
Import YoutubeAnalyzer.
Context `{PyLib} `{World}.

(** Data that is retrieved has a channel and a list of video
    statistics. *)
Lemma retrieved_data_shape (channel_id username handle : option string)
  (days_ago : option Z) (start_date end_date : option string) (data : Data.t) :
  retrieve_youtube_data channel_id username handle days_ago start_date
    end_date = Some data ->
  exists channel others videos,
    Data.items data = Some (channel :: others) /\
    Data.video_stats data = Some videos.
Proof.
  unfold retrieve_youtube_data.
  destruct (select_request channel_id username handle) as [request|];
    [|discriminate].
  cbn [Py.bind].
  destruct (channels_list request) as [[|channel others]|]; try discriminate.
  cbn [Py.bind].
  destruct (Channel.uploads channel) as [uploads|]; [|discriminate].
  cbn [Py.bind].
  destruct (playlistItems_list uploads) as [items|]; [|discriminate].
  cbn [Py.bind].
  destruct (filter_videos_by_date days_ago start_date end_date items)
    as [kept|]; [|discriminate].
  cbn [Py.bind].
  destruct (fetch_video_stats _ _) as [videos|]; [|discriminate].
  cbn [Py.bind]. intros [= <-].
  exists channel, others, videos. split; reflexivity.
Qed.

(** How [analyze_youtube_channel] builds its result from the data. *)
Lemma analysis_of_data (channel_id username handle : option string)
  (days_ago : option Z) (start_date end_date : option string)
  (extract_links : bool) (data : Data.t) (channel : Channel.t)
  (others : list Channel.t) (videos : list Video.t) :
  retrieve_youtube_data channel_id username handle days_ago start_date
    end_date = Some data ->
  Data.items data = Some (channel :: others) ->
  Data.video_stats data = Some videos ->
  exists m0 va l cl,
    extract_account_metrics data = Some m0 /\
    calculate_video_averages videos = Some va /\
    analyze_youtube_channel channel_id username handle days_ago start_date
      end_date extract_links
    = Some (Some {| AnalysisResult.raw_data := data;
                    AnalysisResult.metrics :=
                      set_external_links (set_video_averages m0 va) l;
                    AnalysisResult.channel_links := cl |}) /\
    (extract_links && PLAYWRIGHT_AVAILABLE = false -> l = [] /\ cl = None).
Proof.
  intros Hr Hi Hv. unfold analyze_youtube_channel. rewrite Hr, Hi, Hv.
  destruct (extract_account_metrics_total data) as (m0 & Hm & _).
  destruct (calculate_video_averages_total videos) as (va & Ha).
  rewrite Hm, Ha. cbn [Py.bind].
  destruct (extract_links && PLAYWRIGHT_AVAILABLE).
  - destruct (get_channel_links_playwright channel_id username handle)
      as [[[[[|l ls]|]]|]|];
      (eexists m0, va, _, _; split; [reflexivity|]; split; [reflexivity|];
       split; [reflexivity | discriminate]).
  - exists m0, va, [], None. repeat split; reflexivity.
Qed.

(** X5.  [analyze_youtube_channel] returns a result exactly when
    [retrieve_youtube_data] returns data, and the result carries that
    data; it raises no exception of its own. *)
Theorem analysis_follows_retrieval (channel_id username handle : option string)
  (days_ago : option Z) (start_date end_date : option string)
  (extract_links : bool) :
  match retrieve_youtube_data channel_id username handle days_ago start_date
          end_date with
  | Some data =>
      exists result,
        analyze_youtube_channel channel_id username handle days_ago
          start_date end_date extract_links = Some (Some result) /\
        AnalysisResult.raw_data result = data
  | None =>
      analyze_youtube_channel channel_id username handle days_ago start_date
        end_date extract_links = Some None
  end.
Proof.
  destruct (retrieve_youtube_data channel_id username handle days_ago
              start_date end_date) as [data|] eqn:Hr.
  - destruct (retrieved_data_shape _ _ _ _ _ _ _ Hr)
      as (channel & others & videos & Hi & Hv).
    destruct (analysis_of_data _ _ _ _ _ _ extract_links _ _ _ _ Hr Hi Hv)
      as (m0 & va & l & cl & _ & _ & Ha & _).
    eexists. split; [exact Ha | reflexivity].
  - unfold analyze_youtube_channel. now rewrite Hr.
Qed.

(** X6.  The metrics of every result of [analyze_youtube_channel] carry
    the channel information, the detailed averages of the retrieved
    videos and a list of external links; the summary and the recent
    videos are present exactly when at least one video was retrieved;
    and the links are empty, with no scraper output, when links are not
    requested or Playwright is not available. *)
Theorem analysis_result_shape (channel_id username handle : option string)
  (days_ago : option Z) (start_date end_date : option string)
  (extract_links : bool) (result : AnalysisResult.t) :
  analyze_youtube_channel channel_id username handle days_ago start_date
    end_date extract_links = Some (Some result) ->
  let metrics := AnalysisResult.metrics result in
  exists channel others videos va l,
    Data.items (AnalysisResult.raw_data result) = Some (channel :: others) /\
    Data.video_stats (AnalysisResult.raw_data result) = Some videos /\
    Metrics.channel_info metrics = Some (channel_info_of channel) /\
    calculate_video_averages videos = Some va /\
    Metrics.video_averages metrics = Some va /\
    Metrics.external_links metrics = Some l /\
    (Metrics.video_metrics metrics = None <-> videos = []) /\
    (Metrics.recent_videos metrics = None <-> videos = []) /\
    (extract_links && PLAYWRIGHT_AVAILABLE = false ->
     l = [] /\ AnalysisResult.channel_links result = None).
Proof.
  intros Ha metrics.
  pose proof (analysis_follows_retrieval channel_id username handle days_ago
                start_date end_date extract_links) as Hf.
  destruct (retrieve_youtube_data channel_id username handle days_ago
              start_date end_date) as [data|] eqn:Hr;
    [|rewrite Ha in Hf; discriminate].
  clear Hf.
  destruct (retrieved_data_shape _ _ _ _ _ _ _ Hr)
    as (channel & others & videos & Hi & Hv).
  destruct (analysis_of_data _ _ _ _ _ _ extract_links _ _ _ _ Hr Hi Hv)
    as (m0 & va & l & cl & Hm & Hva & Ha' & Hoff).
  rewrite Ha in Ha'. injection Ha' as ->. subst metrics.
  exists channel, others, videos, va, l.
  cbn [AnalysisResult.raw_data AnalysisResult.metrics
       AnalysisResult.channel_links set_external_links set_video_averages
       Metrics.channel_info Metrics.video_averages Metrics.external_links
       Metrics.video_metrics Metrics.recent_videos].
  do 2 (split; [assumption|]).
  unfold extract_account_metrics in Hm. rewrite Hi, Hv in Hm.
  destruct videos as [|v vs].
  - injection Hm as <-.
    cbn [Metrics.channel_info Metrics.video_metrics Metrics.recent_videos].
    split; [reflexivity|]. split; [exact Hva|]. do 2 (split; [reflexivity|]).
    do 2 (split; [split; reflexivity|]). exact Hoff.
  - destruct (video_metrics_of (v :: vs)) as [s|]; [|discriminate Hm].
    cbn [Py.bind] in Hm. injection Hm as <-.
    cbn [Metrics.channel_info Metrics.video_metrics Metrics.recent_videos].
    split; [reflexivity|]. split; [exact Hva|]. do 2 (split; [reflexivity|]).
    do 2 (split; [split; discriminate|]). exact Hoff.
Qed.

End AnalysisProofs.

Lemma analysis_result_shape_witness :
  exists result,
    YoutubeAnalyzer.analyze_youtube_channel (H := CPython.lib)
      (H0 := BatchFacts.two_namesakes) (Some "UC1") None None None None None
      true = Some (Some result) /\
    YoutubeAnalyzer.Metrics.external_links
      (YoutubeAnalyzer.AnalysisResult.metrics result) = Some [].
Proof.
  eexists. split; [reflexivity|].
  destruct (analysis_result_shape (H := CPython.lib)
              (H0 := BatchFacts.two_namesakes) (Some "UC1") None None None
              None None true _ eq_refl)
    as (channel & others & videos & va & l & _ & _ & _ & _ & _ & Hl & _).
  reflexivity.
Defined.

(* ================================================================== *)
(** ** Further properties: stored data, search and the whole run *)
(* ================================================================== *)

Section RunProofs.
Import YoutubeAnalyzer MoreFacts.
Context `{PyLib} `{World} `{SearchApi}.

(** X7.  Analyzing the raw data stored in a result of
    [analyze_youtube_channel] with [analyze_from_json_data] gives the
    metrics of that result again, the external links apart. *)
Theorem stored_data_reproduces_metrics
  (channel_id username handle : option string) (days_ago : option Z)
  (start_date end_date : option string) (extract_links : bool)
  (result : AnalysisResult.t) :
  analyze_youtube_channel channel_id username handle days_ago start_date
    end_date extract_links = Some (Some result) ->
  exists metrics l,
    analyze_from_json_data (AnalysisResult.raw_data result)
    = Some (AnalysisResult.raw_data result, metrics) /\
    AnalysisResult.metrics result = set_external_links metrics l.
Proof.
  intro Ha.
  pose proof (analysis_follows_retrieval channel_id username handle days_ago
                start_date end_date extract_links) as Hf.
  destruct (retrieve_youtube_data channel_id username handle days_ago
              start_date end_date) as [data|] eqn:Hr;
    [|rewrite Ha in Hf; discriminate].
  clear Hf.
  destruct (retrieved_data_shape _ _ _ _ _ _ _ Hr)
    as (channel & others & videos & Hi & Hv).
  destruct (analysis_of_data _ _ _ _ _ _ extract_links _ _ _ _ Hr Hi Hv)
    as (m0 & va & l & cl & Hm & Hva & Ha' & _).
  rewrite Ha in Ha'. injection Ha' as ->.
  exists (set_video_averages m0 va), l.
  cbn [AnalysisResult.raw_data AnalysisResult.metrics].
  split; [|reflexivity].
  unfold analyze_from_json_data. rewrite Hm, Hv, Hva. reflexivity.
Qed.

(** A result of [analyze_youtube_channel] already holds the averages
    that [run_youtube_analysis] computes for it. *)
Lemma add_video_averages_same (channel_id username handle : option string)
  (days_ago : option Z) (start_date end_date : option string)
  (extract_links : bool) (result : AnalysisResult.t) :
  analyze_youtube_channel channel_id username handle days_ago start_date
    end_date extract_links = Some (Some result) ->
  add_video_averages result = Some result.
Proof.
  intro Ha.
  pose proof (analysis_follows_retrieval channel_id username handle days_ago
                start_date end_date extract_links) as Hf.
  destruct (retrieve_youtube_data channel_id username handle days_ago
              start_date end_date) as [data|] eqn:Hr;
    [|rewrite Ha in Hf; discriminate].
  clear Hf.
  destruct (retrieved_data_shape _ _ _ _ _ _ _ Hr)
    as (channel & others & videos & Hi & Hv).
  destruct (analysis_of_data _ _ _ _ _ _ extract_links _ _ _ _ Hr Hi Hv)
    as (m0 & va & l & cl & Hm & Hva & Ha' & _).
  rewrite Ha in Ha'. injection Ha' as ->.
  unfold add_video_averages. cbn [AnalysisResult.raw_data].
  rewrite Hv, Hva. reflexivity.
Qed.

Lemma add_all_video_averages_same (results : Py.dict AnalysisResult.t) :
  (forall key result, In (key, result) results ->
     add_video_averages result = Some result) ->
  add_all_video_averages results = Some results.
Proof.
  induction results as [|[key result] results IH]; intro Hall;
    [reflexivity|].
  cbn [add_all_video_averages].
  rewrite (Hall key result (or_introl eq_refl)). cbn [Py.bind].
  rewrite IH; [reflexivity|].
  intros k r Hin. apply (Hall k r). now right.
Qed.

(** X8.  [run_youtube_analysis] returns what [analyze_search_results]
    returns for the first five channels of the search, with links
    requested exactly when Playwright is available: the averages it adds
    afterwards are the ones every result already holds. *)
Theorem run_is_search_then_analyze (query : string) :
  run_youtube_analysis query
  = analyze_search_results (search_youtube_channels query 5)
      None None None PLAYWRIGHT_AVAILABLE.
Proof.
  unfold run_youtube_analysis.
  assert (Hl : (if negb PLAYWRIGHT_AVAILABLE then false else true)
               = PLAYWRIGHT_AVAILABLE) by now destruct PLAYWRIGHT_AVAILABLE.
  rewrite Hl.
  destruct (search_youtube_channels query 5) as [|channel more];
    [reflexivity|].
  destruct (analyze_loop None None None PLAYWRIGHT_AVAILABLE
              (channel :: more) []) as (results & Hr & _ & Hv).
  assert (Hr' : analyze_search_results (channel :: more) None None None
                  PLAYWRIGHT_AVAILABLE = Some results) by exact Hr.
  rewrite Hr'. cbn [Py.bind].
  apply add_all_video_averages_same.
  intros key result Hin. destruct (Hv key result Hin) as [[]|Ha].
  eapply add_video_averages_same. exact Ha.
Qed.

Lemma search_loop_ok (channel_ids : list string)
  (channels : list SearchChannel.t) :
  forallb lookup_ok channel_ids = true ->
  exists more,
    search_loop channel_ids channels = Some (channels ++ more)%list /\
    map SearchChannel.channel_id more
    = map Some (filter found channel_ids).
Proof.
  revert channels.
  induction channel_ids as [|channel_id rest IH]; intros channels Hok.
  - exists []. now rewrite app_nil_r.
  - cbn [forallb] in Hok. apply andb_true_iff in Hok.
    destruct Hok as [Hone Hrest].
    cbn [search_loop filter]. unfold lookup_ok in Hone. unfold found at 1.
    destruct (channels_list (ById channel_id))
      as [[|channel_details others]|]; try discriminate; cbn [Py.bind].
    + apply IH. exact Hrest.
    + destruct (Channel.snippet channel_details) as [snippet|];
        [|discriminate]. cbn [Py.bind].
      destruct (IH (channels ++
                    [{| SearchChannel.channel_id := Some channel_id;
                        SearchChannel.title :=
                          Some (or_default (Snippet.title snippet) "Unknown")
                     |}])%list Hrest) as (more & Hs & Hm).
      eexists (_ :: more). rewrite Hs, <- app_assoc. split; [reflexivity|].
      cbn [map SearchChannel.channel_id]. now rewrite Hm.
Qed.

Lemma search_loop_fails (channel_ids : list string)
  (channels : list SearchChannel.t) :
  forallb lookup_ok channel_ids = false ->
  search_loop channel_ids channels = None.
Proof.
  revert channels.
  induction channel_ids as [|channel_id rest IH]; intros channels Hbad;
    [discriminate|].
  cbn [forallb] in Hbad. cbn [search_loop]. unfold lookup_ok in Hbad at 1.
  destruct (channels_list (ById channel_id))
    as [[|channel_details others]|]; cbn [Py.bind]; try reflexivity.
  - apply IH. exact Hbad.
  - destruct (Channel.snippet channel_details) as [snippet|];
      cbn [Py.bind]; [|reflexivity].
    apply IH. exact Hbad.
Qed.

(** X9.  [search_youtube_channels] is all or nothing.  When the search
    and every channel lookup answer, it lists the searched channels that
    the provider knows, in the order of the search, each with its id; as
    soon as the search or one lookup raises, it returns the empty list
    and the channels found before are lost. *)
Theorem search_all_or_nothing (query : string) (max_results : Z) :
  match search_list query max_results with
  | Some channel_ids =>
      if forallb lookup_ok channel_ids
      then map SearchChannel.channel_id
             (search_youtube_channels query max_results)
           = map Some (filter found channel_ids)
      else search_youtube_channels query max_results = []
  | None => search_youtube_channels query max_results = []
  end.
Proof.
  unfold search_youtube_channels.
  destruct (search_list query max_results) as [channel_ids|];
    [|reflexivity].
  cbn [Py.bind].
  destruct (forallb lookup_ok channel_ids) eqn:Hok.
  - destruct (search_loop_ok channel_ids [] Hok) as (more & -> & Hm).
    exact Hm.
  - now rewrite (search_loop_fails channel_ids [] Hok).
Qed.

End RunProofs.

Lemma stored_data_reproduces_metrics_witness :
  exists result metrics l,
    YoutubeAnalyzer.analyze_youtube_channel (H := CPython.lib)
      (H0 := BatchFacts.two_namesakes) (Some "UC1") None None None None None
      false = Some (Some result) /\
    YoutubeAnalyzer.analyze_from_json_data (H := CPython.lib)
      (YoutubeAnalyzer.AnalysisResult.raw_data result)
    = Some (YoutubeAnalyzer.AnalysisResult.raw_data result, metrics) /\
    YoutubeAnalyzer.AnalysisResult.metrics result
    = YoutubeAnalyzer.set_external_links metrics l.
Proof.
  eexists.
  destruct (stored_data_reproduces_metrics (H := CPython.lib)
              (H0 := BatchFacts.two_namesakes) (Some "UC1") None None None
              None None false _ eq_refl) as (metrics & l & Hj & Hm).
  exists metrics, l. split; [reflexivity|]. split; [exact Hj | exact Hm].
Defined.

(* ================================================================== *)
(** ** Further properties: the aggregator *)
(* ================================================================== *)

Section MoreAggregatorProofs.
Import YoutubeAnalyzer AggregatorFacts MoreFacts.
Context `{PyLib}.

Lemma loop_durations (videos : list Video.t) (c : Counters) :
  total_duration_seconds (fold_left process_video videos c)
  = total_duration_seconds c + Py.sum (durations_of videos).
Proof.
  revert c. induction videos as [|v videos IH]; intro c.
  - unfold Py.sum; simpl; lia.
  - cbn [fold_left durations_of map]. rewrite IH.
    unfold Py.sum. cbn [fold_left]. rewrite (fold_add_shift _ (0 + _)).
    fold (durations_of videos).
    cbn [process_video total_duration_seconds]. unfold Py.sum. lia.
Qed.

(** The loop of [calculate_video_averages] computes the averages written
    with sums. *)
Lemma averages_are_sums (v : Video.t) (vs : list Video.t) :
  calculate_video_averages (v :: vs) = Some (averages_by_sums (v :: vs)).
Proof.
  set (videos := v :: vs).
  unfold calculate_video_averages. fold videos.
  set (c0 := {| total_views := 0; total_likes := 0; total_comments := 0;
                total_duration_seconds := 0; view_counts := [] |}).
  pose proof (loop_counters videos c0) as HL. cbv zeta in HL.
  destruct HL as (Hv & Hl & Hc & Hvc).
  pose proof (loop_durations videos c0) as Hd.
  change (total_views c0) with 0 in Hv. change (total_likes c0) with 0 in Hl.
  change (total_comments c0) with 0 in Hc.
  change (total_duration_seconds c0) with 0 in Hd.
  change (view_counts c0) with (@nil Z) in Hvc.
  rewrite Z.add_0_l in Hv, Hl, Hc, Hd. rewrite app_nil_l in Hvc.
  set (c := fold_left process_video videos c0) in *. clearbody c.
  set (n := Z.of_nat (List.length videos)).
  assert (Hn : 0 < n) by (unfold n, videos; simpl; lia).
  assert (Hnb : (0 <? n) = true) by (apply Z.ltb_lt; exact Hn).
  rewrite Hv, Hl, Hc, Hvc, Hd, Hnb.
  rewrite !true_div_nonzero by lia.
  rewrite !guarded_division.
  unfold averages_by_sums. fold n.
  unfold videos. cbn [Py.bind views_of map Py.max Py.min].
  reflexivity.
Qed.


Lemma fold_max_in (l : list Z) (x : Z) : In (fold_left Z.max l x) (x :: l).
Proof.
  revert x. induction l as [|y l IH]; intro x; cbn [fold_left].
  - now left.
  - destruct (IH (Z.max x y)) as [Heq|Hin].
    + rewrite <- Heq.
      destruct (Z.max_spec x y) as [[_ ->]|[_ ->]]; [right; left | left];
        reflexivity.
    + right. right. exact Hin.
Qed.

Lemma fold_min_in (l : list Z) (x : Z) : In (fold_left Z.min l x) (x :: l).
Proof.
  revert x. induction l as [|y l IH]; intro x; cbn [fold_left].
  - now left.
  - destruct (IH (Z.min x y)) as [Heq|Hin].
    + rewrite <- Heq.
      destruct (Z.min_spec x y) as [[_ ->]|[_ ->]]; [left | right; left];
        reflexivity.
    + right. right. exact Hin.
Qed.

Lemma max_is_greatest (l : list Z) (m : Z) :
  Py.max l = Some m -> greatest m l.
Proof.
  destruct l as [|x l]; [discriminate|]. cbn [Py.max]. intros [= <-].
  split; [apply fold_max_in|].
  destruct (fold_max_upper l x) as [Hx Hall]. rewrite Forall_forall in Hall.
  intros y [<-|Hy]; [exact Hx | now apply Hall].
Qed.

Lemma min_is_least (l : list Z) (m : Z) :
  Py.min l = Some m -> least m l.
Proof.
  destruct l as [|x l]; [discriminate|]. cbn [Py.min]. intros [= <-].
  split; [apply fold_min_in|].
  destruct (fold_min_lower l x) as [Hx Hall]. rewrite Forall_forall in Hall.
  intros y [<-|Hy]; [exact Hx | now apply Hall].
Qed.


Lemma sum_permutation (l l' : list Z) :
  Permutation l l' -> Py.sum l = Py.sum l'.
Proof.
  induction 1 as [|x l l' _ IH|x y l|l l' l'' _ IH1 _ IH2].
  - reflexivity.
  - unfold Py.sum in *. cbn [fold_left]. rewrite !(fold_add_shift _ (0 + x)).
    unfold Py.sum. lia.
  - unfold Py.sum. cbn [fold_left].
    rewrite (fold_add_shift _ (0 + y + x)), (fold_add_shift _ (0 + x + y)).
    lia.
  - congruence.
Qed.

Lemma greatest_permutation (l l' : list Z) (m m' : Z) :
  Permutation l l' -> greatest m l -> greatest m' l' -> m = m'.
Proof.
  intros Hp [Hin Hub] [Hin' Hub'].
  assert (m <= m') by (apply Hub'; eapply Permutation_in; eassumption).
  assert (m' <= m)
    by (apply Hub; eapply Permutation_in; [symmetry|]; eassumption).
  lia.
Qed.

Lemma least_permutation (l l' : list Z) (m m' : Z) :
  Permutation l l' -> least m l -> least m' l' -> m = m'.
Proof.
  intros Hp [Hin Hlb] [Hin' Hlb'].
  assert (m' <= m) by (apply Hlb'; eapply Permutation_in; eassumption).
  assert (m <= m')
    by (apply Hlb; eapply Permutation_in; [symmetry|]; eassumption).
  lia.
Qed.

(** X12.  The detailed averages do not depend on the order of the
    videos: two collections with the same videos in any order have the
    same [calculate_video_averages]. *)
Theorem averages_ignore_order (videos videos' : list Video.t) :
  Permutation videos videos' ->
  calculate_video_averages videos = calculate_video_averages videos'.
Proof.
  intro Hp. destruct videos as [|v vs].
  - apply Permutation_nil in Hp. now subst.
  - destruct videos' as [|v' vs'];
      [symmetry in Hp; apply Permutation_nil in Hp; discriminate|].
    rewrite !averages_are_sums. f_equal.
    assert (Hviews : Permutation (views_of (v :: vs)) (views_of (v' :: vs')))
      by (apply Permutation_map; exact Hp).
    assert (Hlikes : Permutation (likes_of (v :: vs)) (likes_of (v' :: vs')))
      by (apply Permutation_map; exact Hp).
    assert (Hcomments :
              Permutation (comments_of (v :: vs)) (comments_of (v' :: vs')))
      by (apply Permutation_map; exact Hp).
    assert (Hdur :
              Permutation (durations_of (v :: vs)) (durations_of (v' :: vs')))
      by (apply Permutation_map; exact Hp).
    unfold averages_by_sums.
    rewrite (Permutation_length Hp), (sum_permutation _ _ Hviews),
      (sum_permutation _ _ Hlikes), (sum_permutation _ _ Hcomments),
      (sum_permutation _ _ Hdur).
    assert (Hmax : Py.max (views_of (v :: vs)) = Py.max (views_of (v' :: vs'))).
    { destruct (Py.max (views_of (v :: vs))) as [m|] eqn:E;
        [|discriminate E].
      destruct (Py.max (views_of (v' :: vs'))) as [m'|] eqn:E';
        [|discriminate E'].
      f_equal. eapply greatest_permutation;
        [exact Hviews | now apply max_is_greatest | now apply max_is_greatest]. }
    assert (Hmin : Py.min (views_of (v :: vs)) = Py.min (views_of (v' :: vs'))).
    { destruct (Py.min (views_of (v :: vs))) as [m|] eqn:E;
        [|discriminate E].
      destruct (Py.min (views_of (v' :: vs'))) as [m'|] eqn:E';
        [|discriminate E'].
      f_equal. eapply least_permutation;
        [exact Hviews | now apply min_is_least | now apply min_is_least]. }
    rewrite Hmax, Hmin. reflexivity.
Qed.

End MoreAggregatorProofs.



Lemma averages_ignore_order_witness :
  YoutubeAnalyzer.calculate_video_averages (H := CPython.lib)
    [AggregatorFacts.a_video 100 10 2; AggregatorFacts.a_video 50 5 1]
  = YoutubeAnalyzer.calculate_video_averages (H := CPython.lib)
      [AggregatorFacts.a_video 50 5 1; AggregatorFacts.a_video 100 10 2].
Proof.
  apply (averages_ignore_order (H := CPython.lib)).
  apply perm_swap.
Defined.

(* ================================================================== *)
(** ** Further properties: the recent videos *)
(* ================================================================== *)

Section SortProofs.
Import YoutubeAnalyzer MoreFacts.








End SortProofs.


(* ================================================================== *)
(** ** Further properties: looking up the batch and the export *)
(* ================================================================== *)

Section LookupProofs.
Context {V : Type}.

Lemma get_setitem_same (k : string) (v : V) (d : Py.dict V) :
  Py.get k (Py.setitem k v d) = Some v.
Proof.
  induction d as [|[k' v'] d IH]; cbn [Py.setitem Py.get].
  - now rewrite String.eqb_refl.
  - destruct (String.eqb k' k) eqn:E; cbn [Py.get]; rewrite E;
      [reflexivity | exact IH].
Qed.

Lemma get_setitem_other (k k0 : string) (v : V) (d : Py.dict V) :
  k <> k0 -> Py.get k0 (Py.setitem k v d) = Py.get k0 d.
Proof.
  intro Hne. induction d as [|[k' v'] d IH]; cbn [Py.setitem Py.get].
  - destruct (String.eqb_spec k k0); [contradiction | reflexivity].
  - destruct (String.eqb_spec k' k) as [->|Hk]; cbn [Py.get].
    + destruct (String.eqb_spec k k0); [contradiction | reflexivity].
    + destruct (String.eqb k' k0); [reflexivity | exact IH].
Qed.

Lemma length_setitem (k : string) (v : V) (d : Py.dict V) :
  (List.length (Py.setitem k v d) <= S (List.length d))%nat.
Proof.
  induction d as [|[k' v'] d IH]; cbn [Py.setitem List.length]; [lia|].
  destruct (String.eqb k' k); cbn [List.length]; lia.
Qed.

End LookupProofs.

Section BatchLookupProofs.
Import YoutubeAnalyzer BatchFacts MoreFacts.
Context `{PyLib} `{World}.




Lemma export_fold_lookup (results : Py.dict AnalysisResult.t)
  (channels : Py.dict ExportEntry.t) (key : string) :
  Py.get key
    (fold_left
       (fun channels entry =>
          let '(channel_id, result) := entry in
          let metrics := AnalysisResult.metrics result in
          Py.setitem (export_key channel_id metrics) (export_entry metrics)
                     channels)
       results channels)
  = match last_filed key results with
    | Some entry => Some (export_entry (AnalysisResult.metrics (snd entry)))
    | None => Py.get key channels
    end.
Proof.
  unfold last_filed. revert channels.
  induction results as [|[channel_id result] results IH] using rev_ind;
    intro channels; [reflexivity|].
  rewrite fold_left_app, rev_app_distr. cbn [fold_left rev app find fst snd].
  destruct (String.eqb_spec
              (export_key channel_id (AnalysisResult.metrics result)) key)
    as [<-|Hne].
  - apply get_setitem_same.
  - rewrite (get_setitem_other _ _ _ _ Hne). apply IH.
Qed.

Lemma export_fold_length (results : Py.dict AnalysisResult.t)
  (channels : Py.dict ExportEntry.t) :
  (List.length
     (fold_left
        (fun channels entry =>
           let '(channel_id, result) := entry in
           let metrics := AnalysisResult.metrics result in
           Py.setitem (export_key channel_id metrics) (export_entry metrics)
                      channels)
        results channels)
   <= List.length channels + List.length results)%nat.
Proof.
  revert channels. induction results as [|[channel_id result] results IH];
    intro channels; cbn [fold_left List.length]; [lia|].
  eapply Nat.le_trans; [apply IH|].
  pose proof (length_setitem
                (export_key channel_id (AnalysisResult.metrics result))
                (export_entry (AnalysisResult.metrics result)) channels).
  lia.
Qed.

(** X15.  In the document of [export_to_json] the entry found under a
    key is the one of the last result filed under that key: when several
    channels are filed under one title, only the last is exported.  The
    document never has more entries than there are results, and it is
    not produced for an empty result set. *)
Theorem export_last_wins (results : Py.dict AnalysisResult.t)
  (query : option string) :
  match export_to_json results query with
  | Some export_data =>
      (forall key,
         Py.get key (ExportData.channels export_data)
         = option_map
             (fun entry => export_entry (AnalysisResult.metrics (snd entry)))
             (last_filed key results)) /\
      (List.length (ExportData.channels export_data)
       <= List.length results)%nat
  | None => results = []
  end.
Proof.
  unfold export_to_json. destruct results as [|entry results];
    [reflexivity|].
  cbn [ExportData.channels]. split.
  - intro key. rewrite export_fold_lookup.
    now destruct (last_filed key (entry :: results)).
  - pose proof (export_fold_length (entry :: results) []) as Hlen.
    cbn [List.length] in *. lia.
Qed.

End BatchLookupProofs.


(* ================================================================== *)
(** ** Further properties: strings *)
(* ================================================================== *)

Section StringProofs.
Import MoreFacts.

Lemma append_assoc (a b c : string) : (a ++ b) ++ c = a ++ (b ++ c).
Proof. induction a as [|x a IH]; simpl; [reflexivity | now rewrite IH]. Qed.

Lemma split_free (c : ascii) (s : string) :
  free_of c s = true -> Py.split c s = [s].
Proof.
  induction s as [|a s IH]; cbn [free_of Py.split]; [reflexivity|].
  intro Hf. apply andb_true_iff in Hf. destruct Hf as [Ha Hs].
  apply negb_true_iff in Ha. rewrite Ha, (IH Hs). reflexivity.
Qed.

Lemma split_app (c : ascii) (a b : string) :
  free_of c a = true ->
  Py.split c (a ++ String c b) = a :: Py.split c b.
Proof.
  induction a as [|x a IH]; cbn [free_of Py.split append].
  - intros _. now rewrite Ascii.eqb_refl.
  - intro Hf. apply andb_true_iff in Hf. destruct Hf as [Hx Ha].
    apply negb_true_iff in Hx. rewrite Hx, (IH Ha). reflexivity.
Qed.

Lemma contains_char_app (c : ascii) (a b : string) :
  Py.contains (String c EmptyString) (a ++ String c b) = true.
Proof.
  induction a as [|x a IH]; cbn [append Py.contains Py.startswith].
  - now rewrite Ascii.eqb_refl.
  - rewrite IH. apply orb_true_r.
Qed.

Lemma contains_char_free (c : ascii) (s : string) :
  free_of c s = true -> Py.contains (String c EmptyString) s = false.
Proof.
  induction s as [|a s IH]; cbn [free_of Py.contains Py.startswith];
    [reflexivity|].
  intro Hf. apply andb_true_iff in Hf. destruct Hf as [Ha Hs].
  apply negb_true_iff in Ha. rewrite Ascii.eqb_sym, Ha, (IH Hs). reflexivity.
Qed.

Lemma free_of_app (c : ascii) (a b : string) :
  free_of c (a ++ b) = free_of c a && free_of c b.
Proof.
  induction a as [|x a IH]; cbn [append free_of]; [reflexivity|].
  now rewrite IH, andb_assoc.
Qed.

Lemma startswith_app (n s t : string) :
  Py.startswith n s = true -> Py.startswith n (s ++ t) = true.
Proof.
  revert s. induction n as [|a n IH]; intro s; [reflexivity|].
  destruct s as [|b s]; cbn [Py.startswith append]; [discriminate|].
  intro Hs. apply andb_true_iff in Hs. destruct Hs as [Hab Hn].
  now rewrite Hab, (IH s Hn).
Qed.

Lemma contains_app_l (n s t : string) :
  Py.contains n s = true -> Py.contains n (s ++ t) = true.
Proof.
  induction s as [|b s IH]; cbn [Py.contains append].
  - rewrite orb_false_r. intro Hn. destruct n; [|discriminate Hn].
    now destruct t.
  - intro Hc. apply orb_true_iff in Hc. destruct Hc as [Hs|Hc].
    + change (String b (s ++ t)) with (String b s ++ t).
      now rewrite (startswith_app _ _ t Hs).
    + rewrite (IH Hc). apply orb_true_r.
Qed.

Lemma endswith_app (p s : string) : Py.endswith p (s ++ p) = true.
Proof.
  induction s as [|a s IH]; cbn [append].
  - destruct p; cbn [Py.endswith]; now rewrite String.eqb_refl.
  - cbn [Py.endswith]. rewrite IH. apply orb_true_r.
Qed.

Lemma endswith_inv (p s : string) :
  Py.endswith p s = true -> exists w, s = w ++ p.
Proof.
  induction s as [|a s IH]; cbn [Py.endswith]; intro He;
    apply orb_true_iff in He; destruct He as [He|He].
  - apply String.eqb_eq in He. subst. now exists EmptyString.
  - discriminate He.
  - apply String.eqb_eq in He. subst. now exists EmptyString.
  - destruct (IH He) as (w & ->). now exists (String a w).
Qed.

Lemma rstrip_app (c : ascii) (s t : string) :
  Py.rstrip c t = t -> t <> EmptyString -> Py.rstrip c (s ++ t) = s ++ t.
Proof.
  intros Ht Hne. induction s as [|a s IH]; cbn [append]; [exact Ht|].
  cbn [Py.rstrip]. rewrite IH.
  destruct (s ++ t) eqn:E; [|reflexivity].
  destruct s; [contradiction | discriminate E].
Qed.

End StringProofs.

(* ================================================================== *)
(** ** Further properties: durations in general *)
(* ================================================================== *)

Section DurationProofs.
Import YoutubeAnalyzer MoreFacts.
Context `{PyLib}.

Lemma plain_parts (s : string) :
  plain s = true ->
  free_of "H" s = true /\ free_of "M" s = true /\ free_of "S" s = true /\
  free_of "T" s = true.
Proof.
  unfold plain. intro Hp.
  repeat (apply andb_true_iff in Hp; destruct Hp as [Hp ?]).
  repeat split; assumption.
Qed.

(** X16.  A duration with hours, minutes and seconds is converted to
    3600 h + 60 m + s, where h, m and s are what [int] makes of the three
    fields, and the conversion fails when [int] rejects a field.  What
    stands before the [T] is not read: the days of a duration such as
    P1DT2H3M4S are dropped. *)
Theorem duration_hours_minutes_seconds (prefix h m s : string) :
  free_of "H" prefix = true -> free_of "T" prefix = true ->
  plain h = true -> plain m = true -> plain s = true ->
  duration_to_seconds (prefix ++ "T" ++ h ++ "H" ++ m ++ "M" ++ s ++ "S")
  = (hours <- py_int h ;;
     minutes <- py_int m ;;
     seconds <- py_int s ;;
     Some (0 + hours * 3600 + minutes * 60 + seconds)).
Proof.
  intros HpH HpT Hh Hm Hs.
  destruct (plain_parts h Hh) as (HhH & HhM & HhS & HhT).
  destruct (plain_parts m Hm) as (HmH & HmM & HmS & HmT).
  destruct (plain_parts s Hs) as (HsH & HsM & HsS & HsT).
  change (prefix ++ "T" ++ h ++ "H" ++ m ++ "M" ++ s ++ "S")
    with (prefix ++ String "T" (h ++ String "H" (m ++ String "M"
                                                   (s ++ String "S" "")))).
  set (tail := m ++ String "M" (s ++ String "S" "")).
  assert (Hwhole : prefix ++ String "T" (h ++ String "H" tail)
                   = (prefix ++ String "T" h) ++ String "H" tail).
  { rewrite append_assoc. reflexivity. }
  assert (Htail : free_of "H" tail = true).
  { unfold tail. rewrite free_of_app. cbn [free_of]. rewrite free_of_app.
    cbn [free_of]. rewrite HmH, HsH. reflexivity. }
  assert (Hfront : free_of "H" (prefix ++ String "T" h) = true).
  { rewrite free_of_app. cbn [free_of]. rewrite HpH, HhH. reflexivity. }
  unfold duration_to_seconds.
  rewrite Hwhole, contains_char_app, (split_app "H" _ _ Hfront),
    (split_free "H" _ Htail).
  cbn [Py.index nth_error Py.bind].
  rewrite (split_app "T" _ _ HpT), (split_free "T" _ HhT).
  cbn [Py.index nth_error Py.bind].
  destruct (py_int h) as [hours|]; [|reflexivity]. cbn [Py.bind].
  unfold tail.
  rewrite contains_char_app, (split_app "M" _ _ HmM).
  assert (HsecM : free_of "M" (s ++ String "S" "") = true).
  { rewrite free_of_app. cbn [free_of]. rewrite HsM. reflexivity. }
  rewrite (split_free "M" _ HsecM).
  cbn [Py.index nth_error Py.bind].
  destruct (py_int m) as [minutes|]; [|reflexivity]. cbn [Py.bind].
  rewrite contains_char_app, (split_app "S" _ _ HsS).
  cbn [Py.index nth_error Py.bind].
  destruct (py_int s) as [seconds|]; reflexivity.
Qed.

End DurationProofs.

Lemma duration_hours_minutes_seconds_witness :
  YoutubeAnalyzer.duration_to_seconds (H := CPython.lib) "P1DT2H3M4S"
  = Some 7384.
Proof.
  apply (duration_hours_minutes_seconds (H := CPython.lib) "P1D" "2" "3" "4");
    reflexivity.
Defined.

(* ================================================================== *)
(** ** Further properties: the scraper's page and channel id *)
(* ================================================================== *)

Section PageProofs.
Import YoutubeAnalyzer MoreFacts.

(** X17.  [get_channel_links] refuses exactly the URLs that do not
    contain [youtube.com]; the URL it goes on with still contains it and
    ends with [/about], and giving that URL again changes nothing. *)
Theorem about_url_normalizes (url : string) :
  (about_url url = None <-> Py.contains "youtube.com" url = false) /\
  (forall page,
     about_url url = Some page ->
     Py.contains "youtube.com" page = true /\
     Py.endswith "/about" page = true /\
     about_url page = Some page).
Proof.
  unfold about_url at 1 2.
  destruct (Py.contains "youtube.com" url) eqn:Hy; cbn [negb].
  - split.
    + split; [|discriminate].
      destruct (Py.endswith "/about" url); cbn [negb];
        [discriminate|]. destruct (Py.endswith "/" url); discriminate.
    + intros page Hp.
      assert (Hpage : Py.contains "youtube.com" page = true /\
                      Py.endswith "/about" page = true).
      { destruct (Py.endswith "/about" url) eqn:Ha; cbn [negb] in Hp.
        - injection Hp as <-. split; assumption.
        - destruct (Py.endswith "/" url) eqn:Hs; injection Hp as <-.
          + split; [now apply contains_app_l|].
            destruct (endswith_inv _ _ Hs) as (w & ->).
            rewrite append_assoc. apply (endswith_app "/about" w).
          + split; [now apply contains_app_l | apply endswith_app]. }
      destruct Hpage as [Hc He]. split; [exact Hc|]. split; [exact He|].
      unfold about_url. now rewrite Hc, He.
  - split; [split; reflexivity | discriminate].
Qed.

Lemma some_eq {A : Type} (a b : A) : Some a = Some b -> a = b.
Proof. now intros [= ->]. Qed.

(** X18.  Every URL that [get_channel_links_playwright] builds is
    accepted by [get_channel_links] and used as it is. *)
Theorem links_page_url_accepted (channel_id username handle : option string)
  (url : string) :
  links_page_url channel_id username handle = Some url ->
  about_url url = Some url.
Proof.
  intro Hu.
  assert (Hform : exists front x,
             url = (front ++ x) ++ "/about" /\
             Py.contains "youtube.com" front = true).
  { destruct channel_id as [[|a i]|], username as [[|b u]|],
      handle as [[|c h]|]; cbn [links_page_url] in Hu;
      try discriminate Hu; apply some_eq in Hu; subst url;
      rewrite <- append_assoc;
      eexists; eexists; (split; [reflexivity | reflexivity]). }
  destruct Hform as (front & x & -> & Hc).
  unfold about_url.
  rewrite (contains_app_l _ _ "/about" (contains_app_l _ _ x Hc)).
  now rewrite endswith_app.
Qed.

(** X19.  From the path of a page of the form [/channel/ID/about] the
    scraper reads the channel id [ID], and from [/@HANDLE/about] the
    handle with its [@]; from [/user/NAME/about] it reads no id and
    reports [Unknown], except for the user named [channel], for whom it
    reports [about]. *)
Theorem channel_id_from_page_path (name : string) :
  free_of "/" name = true ->
  channel_id_from_path ("/channel/" ++ name ++ "/about") = name /\
  channel_id_from_path ("/@" ++ name ++ "/about") = "@" ++ name /\
  channel_id_from_path ("/user/" ++ name ++ "/about")
  = if String.eqb "channel" name then "about" else "Unknown".
Proof.
  intro Hf.
  assert (Hstrip : forall front,
             Py.rstrip "/" (front ++ name ++ "/about")
             = front ++ name ++ "/about").
  { intro front. rewrite <- append_assoc.
    apply rstrip_app; [reflexivity | discriminate]. }
  assert (Hsplit : Py.split "/" (name ++ "/about") = [name; "about"]).
  { change (name ++ "/about") with (name ++ String "/" "about").
    rewrite (split_app "/" _ _ Hf). reflexivity. }
  unfold channel_id_from_path, Py.strip. split; [|split].
  - change (Py.lstrip "/" ("/channel/" ++ name ++ "/about"))
      with ("channel/" ++ name ++ "/about").
    rewrite Hstrip.
    change ("channel/" ++ name ++ "/about")
      with ("channel" ++ String "/" (name ++ "/about")).
    rewrite (split_app "/" "channel" _ eq_refl), Hsplit. reflexivity.
  - change (Py.lstrip "/" ("/@" ++ name ++ "/about"))
      with ("@" ++ name ++ "/about").
    rewrite Hstrip.
    change ("@" ++ name ++ "/about") with (String "@" (name ++ "/about")).
    cbn [Py.split]. change (Ascii.eqb "@" "/") with false. cbv iota.
    rewrite Hsplit. reflexivity.
  - change (Py.lstrip "/" ("/user/" ++ name ++ "/about"))
      with ("user/" ++ name ++ "/about").
    rewrite Hstrip.
    change ("user/" ++ name ++ "/about")
      with ("user" ++ String "/" (name ++ "/about")).
    rewrite (split_app "/" "user" _ eq_refl), Hsplit.
    cbn [Py.mem existsb]. change (String.eqb "channel" "user") with false.
    change (String.eqb "channel" "about") with false.
    cbn [orb]. rewrite orb_false_r.
    cbn [Py.list_index]. change (String.eqb "user" "channel") with false.
    cbv iota. rewrite (String.eqb_sym name "channel").
    destruct (String.eqb "channel" name); reflexivity.
Qed.

End PageProofs.

Lemma about_url_normalizes_witness :
  YoutubeAnalyzer.about_url "https://www.youtube.com/@somebody/"
  = Some "https://www.youtube.com/@somebody/about" /\
  YoutubeAnalyzer.about_url "https://www.youtube.com/@somebody/about"
  = Some "https://www.youtube.com/@somebody/about".
Proof.
  split; [reflexivity|].
  apply (proj2 (about_url_normalizes "https://www.youtube.com/@somebody/")).
  reflexivity.
Defined.

Lemma links_page_url_accepted_witness :
  YoutubeAnalyzer.about_url "https://www.youtube.com/channel/UC1/about"
  = Some "https://www.youtube.com/channel/UC1/about".
Proof.
  apply (links_page_url_accepted (Some "UC1") None None). reflexivity.
Defined.

Lemma channel_id_from_page_path_witness :
  YoutubeAnalyzer.channel_id_from_path "/channel/UC1/about" = "UC1".
Proof.
  apply (proj1 (channel_id_from_page_path "UC1" eq_refl)).
Defined.

(* ================================================================== *)
(** ** Further properties: the search handlers and the links *)
(* ================================================================== *)

Section HandlerProofs.
Import YoutubeAnalyzer.
Context `{PyLib}.

(** X20.  The handlers [search_channels] (limit 50) and
    [analyze_search_results] (limit 10) answer 400 when the query is
    missing or empty or when [max_results], 5 by default, is not an
    integer; otherwise they go on with [max_results] brought into the
    range from 1 to the limit, unchanged when it already lies there. *)
Theorem max_results_within_limits (limit : Z) (args : App.SearchArgs.t) :
  1 <= limit ->
  let given :=
    match App.SearchArgs.max_results args with
    | Some m => m
    | None => "5"
    end in
  match App.checked_max_results limit args with
  | inr max_results =>
      Py.truthy_opt (App.SearchArgs.query args) = true /\
      1 <= max_results <= limit /\
      exists n, py_int given = Some n /\
                (1 <= n <= limit -> max_results = n) /\
                (n < 1 -> max_results = 1) /\
                (limit < n -> max_results = limit)
  | inl (status, _) =>
      status = 400 /\
      (Py.truthy_opt (App.SearchArgs.query args) = false \/
       py_int given = None)
  end.
Proof.
  intros Hlimit given. unfold App.checked_max_results. fold given.
  destruct (Py.truthy_opt (App.SearchArgs.query args)); cbn [negb].
  - destruct (py_int given) as [n|].
    + split; [reflexivity|]. unfold Py.clamp. split; [lia|].
      exists n. split; [reflexivity|]. repeat split; lia.
    + split; [reflexivity | now right].
  - split; [reflexivity | now left].
Qed.

(** X21.  The link processing of the handlers keeps the links, their
    order, their texts and their [direct_url] entries, and replaces the
    URL of every link by [extract_direct_url] of it; the test for
    [youtube.com/redirect] that guards the call changes nothing. *)
Theorem direct_links_rewrite_urls (external_links : list Link.t) :
  map Link.text (App.direct_links external_links)
  = map Link.text external_links /\
  map Link.direct_url (App.direct_links external_links)
  = map Link.direct_url external_links /\
  map Link.url (App.direct_links external_links)
  = map (fun link => extract_direct_url (Link.url link)) external_links.
Proof.
  unfold App.direct_links.
  induction external_links as [|link links (IHt & IHd & IHu)];
    [repeat split|].
  cbn [map]. rewrite IHt, IHd, IHu. unfold App.direct_link.
  destruct (Py.contains "youtube.com/redirect" (Link.url link)) eqn:Hc.
  - repeat split; reflexivity.
  - rewrite (extract_direct_url_other _ Hc). repeat split; reflexivity.
Qed.

End HandlerProofs.

Lemma max_results_within_limits_witness :
  match App.checked_max_results (H := CPython.lib) 10
          {| App.SearchArgs.query := Some "music";
             App.SearchArgs.max_results := Some "25" |} with
  | inr max_results =>
      1 <= max_results <= 10 /\
      exists n, CPython.int "25" = Some n /\ (10 < n -> max_results = 10)
  | inl (status, _) => status = 400
  end.
Proof.
  pose proof (max_results_within_limits (H := CPython.lib) 10
                {| App.SearchArgs.query := Some "music";
                   App.SearchArgs.max_results := Some "25" |}
                ltac:(lia)) as Hm.
  cbv zeta in Hm.
  destruct (App.checked_max_results (H := CPython.lib) 10 _)
    as [[status message]|max_results].
  - exact (proj1 Hm).
  - destruct Hm as (_ & Hrange & n & Hn & _ & _ & Hhigh).
    split; [exact Hrange|]. exists n. split; [exact Hn | exact Hhigh].
Defined.

(* ================================================================== *)
(** ** Further properties: the whole end date *)
(* ================================================================== *)

Section WholeDayProofs.
Import YoutubeAnalyzer MoreFacts.

Lemma every_second_spec (f : Z -> Z -> Z -> bool) (hh mm ss : Z) :
  every_second f = true ->
  0 <= hh <= 23 -> 0 <= mm <= 59 -> 0 <= ss <= 59 ->
  f hh mm ss = true.
Proof.
  unfold every_second. intros Hall Hh Hm Hs.
  rewrite forallb_forall in Hall.
  specialize (Hall (Z.to_nat hh)). rewrite in_seq in Hall.
  assert (Hh' : forallb
                  (fun mm0 =>
                     forallb (fun ss0 => f (Z.of_nat (Z.to_nat hh))
                                           (Z.of_nat mm0) (Z.of_nat ss0))
                             (seq 0 60))
                  (seq 0 60) = true) by (apply Hall; lia).
  rewrite forallb_forall in Hh'.
  specialize (Hh' (Z.to_nat mm)). rewrite in_seq in Hh'.
  assert (Hm' : forallb (fun ss0 => f (Z.of_nat (Z.to_nat hh))
                                      (Z.of_nat (Z.to_nat mm)) (Z.of_nat ss0))
                        (seq 0 60) = true) by (apply Hh'; lia).
  rewrite forallb_forall in Hm'.
  specialize (Hm' (Z.to_nat ss)). rewrite in_seq in Hm'.
  rewrite !Z2Nat.id in Hm' by lia. apply Hm'. lia.
Qed.

Lemma every_second_inside_day : every_second inside_day = true.
Proof. vm_compute. reflexivity. Qed.

Lemma ascii_compare_refl (a : ascii) : Ascii.compare a a = Eq.
Proof. unfold Ascii.compare. apply N.compare_refl. Qed.

Lemma ltb_app_same (p a b : string) :
  String.ltb (p ++ a) (p ++ b) = String.ltb a b.
Proof.
  unfold String.ltb. induction p as [|c p IH]; [reflexivity|].
  cbn [append String.compare]. rewrite ascii_compare_refl. exact IH.
Qed.

Lemma isoformat_parts (y m d hh mm ss : Z) :
  isoformat (at_time y m d hh mm ss) ++ "Z"
  = date_text y m d ++ time_text hh mm ss.
Proof. reflexivity. Qed.

Context `{PyLib} `{World}.

(** X22.  A window that starts and ends on the same date keeps every
    item published on that date, from 00:00:00 to 23:59:59: the start is
    taken at midnight and the end at the last second of its day, both
    inclusive. *)
Theorem whole_date_is_kept (date : string) (y m d hh mm ss : Z)
  (video_id : string) :
  strptime date = Some (y, m, d) ->
  0 <= hh <= 23 -> 0 <= mm <= 59 -> 0 <= ss <= 59 ->
  let item :=
    {| PlaylistItem.publishedAt := isoformat (at_time y m d hh mm ss) ++ "Z";
       PlaylistItem.videoId := video_id |} in
  filter_videos_by_date None (Some date) (Some date) [item] = Some [item].
Proof.
  intros Hdate Hh Hm Hs item.
  pose proof (every_second_spec inside_day hh mm ss every_second_inside_day
                Hh Hm Hs) as Hin.
  unfold inside_day in Hin. apply andb_true_iff in Hin.
  destruct Hin as [Hstart Hend].
  apply negb_true_iff in Hstart. apply negb_true_iff in Hend.
  rewrite filter_videos_by_date_eq. cbn [Py.bind].
  unfold start_date_str, end_date_str. rewrite Hdate.
  change {| Datetime.year := y; Datetime.month := m; Datetime.day := d;
            Datetime.hour := 0; Datetime.minute := 0; Datetime.second := 0 |}
    with (at_time y m d 0 0 0).
  change {| Datetime.year := y; Datetime.month := m; Datetime.day := d;
            Datetime.hour := 23; Datetime.minute := 59;
            Datetime.second := 59 |}
    with (at_time y m d 23 59 59).
  cbn [filter]. unfold meets_criteria.
  subst item. cbn [PlaylistItem.publishedAt].
  rewrite !isoformat_parts, !ltb_app_same.
  change (time_text 0 0 0) with "00:00:00Z".
  change (time_text 23 59 59) with "23:59:59Z".
  rewrite Hstart, Hend. reflexivity.
Qed.

End WholeDayProofs.

Lemma whole_date_is_kept_witness :
  YoutubeAnalyzer.filter_videos_by_date (H := CPython.lib)
    (H0 := BatchFacts.two_namesakes) None (Some "2024-01-31")
    (Some "2024-01-31") [FilterFacts.published "2024-01-31T23:59:59Z" "v9"]
  = Some [FilterFacts.published "2024-01-31T23:59:59Z" "v9"].
Proof.
  apply (whole_date_is_kept (H := CPython.lib) (H0 := BatchFacts.two_namesakes)
           "2024-01-31" 2024 1 31 23 59 59 "v9");
    [reflexivity | lia | lia | lia].
Defined.

(* ================================================================== *)
(** ** Further properties: counts, file names and the answered document *)
(* ================================================================== *)

Section CountProofs.
Import YoutubeAnalyzer.
Context `{PyLib} `{World} `{SearchApi}.

Lemma averages_count (videos : list Video.t) (a : VideoAverages.t) :
  calculate_video_averages videos = Some a ->
  VideoAverages.count a = Z.of_nat (List.length videos).
Proof.
  destruct videos as [|v vs].
  - intros [= <-]. reflexivity.
  - destruct (averages_nonempty v vs) as (a' & Ha & Hn & _).
    rewrite Ha. intros [= <-]. exact Hn.
Qed.

(** X23.  For every result of [analyze_youtube_channel] the number that
    [check_analyzed_videos_count] reads off the raw data is the [count]
    of the detailed averages and, when there is a summary, its
    [analyzed_videos_count]. *)
Theorem analyzed_counts_agree (channel_id username handle : option string)
  (days_ago : option Z) (start_date end_date : option string)
  (extract_links : bool) (result : AnalysisResult.t) :
  analyze_youtube_channel channel_id username handle days_ago start_date
    end_date extract_links = Some (Some result) ->
  let n := check_analyzed_videos_count (AnalysisResult.raw_data result) in
  (exists a,
     Metrics.video_averages (AnalysisResult.metrics result) = Some a /\
     VideoAverages.count a = n) /\
  (forall s,
     Metrics.video_metrics (AnalysisResult.metrics result) = Some s ->
     VideoMetrics.analyzed_videos_count s = n).
Proof.
  intros Ha n.
  pose proof (analysis_follows_retrieval channel_id username handle days_ago
                start_date end_date extract_links) as Hf.
  destruct (retrieve_youtube_data channel_id username handle days_ago
              start_date end_date) as [data|] eqn:Hr;
    [|rewrite Ha in Hf; discriminate].
  clear Hf.
  destruct (retrieved_data_shape _ _ _ _ _ _ _ Hr)
    as (channel & others & videos & Hi & Hv).
  destruct (analysis_of_data _ _ _ _ _ _ extract_links _ _ _ _ Hr Hi Hv)
    as (m0 & va & l & cl & Hm & Hva & Ha' & _).
  rewrite Ha in Ha'. injection Ha' as ->. subst n.
  unfold check_analyzed_videos_count.
  cbn [AnalysisResult.raw_data AnalysisResult.metrics set_external_links
       set_video_averages Metrics.video_averages Metrics.video_metrics].
  rewrite Hv. split.
  - exists va. split; [reflexivity | now apply averages_count].
  - intros s Hs. unfold extract_account_metrics in Hm. rewrite Hi, Hv in Hm.
    destruct videos as [|v vs].
    + injection Hm as <-. discriminate Hs.
    + destruct (summary_nonempty v vs) as (s' & Hs' & Hn & _).
      rewrite Hs' in Hm. cbn [Py.bind] in Hm. injection Hm as <-.
      cbn [Metrics.video_metrics] in Hs. injection Hs as <-. exact Hn.
Qed.

End CountProofs.

Lemma analyzed_counts_agree_witness :
  exists result a,
    YoutubeAnalyzer.analyze_youtube_channel (H := CPython.lib)
      (H0 := BatchFacts.two_namesakes) (Some "UC1") None None None None None
      false = Some (Some result) /\
    YoutubeAnalyzer.Metrics.video_averages
      (YoutubeAnalyzer.AnalysisResult.metrics result) = Some a /\
    YoutubeAnalyzer.VideoAverages.count a
    = YoutubeAnalyzer.check_analyzed_videos_count
        (YoutubeAnalyzer.AnalysisResult.raw_data result).
Proof.
  eexists.
  destruct (analyzed_counts_agree (H := CPython.lib)
              (H0 := BatchFacts.two_namesakes) (Some "UC1") None None None
              None None false _ eq_refl) as ((a & Ha & Hn) & _).
  exists a. split; [reflexivity|]. split; [exact Ha | exact Hn].
Defined.

Section FileNameProofs.
Import YoutubeAnalyzer.

(** X24.  The file [export_to_json] writes to always has a name ending
    with [.json]: a given name that ends so is used as it is, any other
    gets [.json] appended, and without a name one is made from the
    time. *)
Theorem export_filename_json (filename : option string) (timestamp : string) :
  Py.endswith ".json" (export_filename filename timestamp) = true /\
  (forall name,
     filename = Some name -> Py.truthy name = true ->
     Py.endswith ".json" name = true ->
     export_filename filename timestamp = name) /\
  (forall name,
     filename = Some name -> Py.truthy name = true ->
     Py.endswith ".json" name = false ->
     export_filename filename timestamp = name ++ ".json").
Proof.
  split; [|split].
  - unfold export_filename. destruct filename as [[|a f]|].
    + rewrite <- append_assoc. apply endswith_app.
    + destruct (Py.endswith ".json" (String a f)) eqn:He; cbn [negb];
        [exact He | apply endswith_app].
    + rewrite <- append_assoc. apply endswith_app.
  - intros name -> Ht He. destruct name as [|a f]; [discriminate Ht|].
    unfold export_filename. now rewrite He.
  - intros name -> Ht He. destruct name as [|a f]; [discriminate Ht|].
    unfold export_filename. now rewrite He.
Qed.

End FileNameProofs.

Lemma export_filename_json_witness :
  YoutubeAnalyzer.export_filename (Some "channels") "20240131_120000"
  = "channels.json".
Proof.
  apply (proj2 (proj2 (export_filename_json (Some "channels")
                         "20240131_120000")) "channels");
    reflexivity.
Defined.

Section AnswerProofs.
Import YoutubeAnalyzer.
Context `{PyLib}.

Lemma setitem_map {V W : Type} (f : V -> W) (k : string) (v : V)
  (d : Py.dict V) :
  Py.setitem k (f v) (map (fun e => (fst e, f (snd e))) d)
  = map (fun e => (fst e, f (snd e))) (Py.setitem k v d).
Proof.
  induction d as [|[k' v'] d IH]; cbn [Py.setitem map fst snd];
    [reflexivity|].
  destruct (String.eqb k' k); cbn [map fst snd]; [reflexivity|].
  now rewrite IH.
Qed.

(** X25.  The channels that [GET /api/analyze] answers with are the
    channels of the document of [export_to_json] for the same results,
    entry by entry under the same keys and in the same order, each
    without its detailed averages and with its links made direct. *)
Theorem answer_is_export (results : Py.dict AnalysisResult.t)
  (query : option string) :
  match export_to_json results query with
  | Some export_data =>
      App.analyze_channels results
      = map (fun e => (fst e, App.answered (snd e)))
            (ExportData.channels export_data)
  | None => App.analyze_channels results = []
  end.
Proof.
  unfold export_to_json. destruct results as [|entry results];
    [reflexivity|].
  cbn [ExportData.channels]. unfold App.analyze_channels.
  change (@nil (string * App.AnalyzeEntry.t))
    with (map (fun e : string * ExportEntry.t =>
                 (fst e, App.answered (snd e))) []).
  generalize (@nil (string * ExportEntry.t)) as acc.
  generalize (entry :: results) as all. clear entry results.
  induction all as [|[channel_id result] all IH]; intro acc;
    [reflexivity|].
  cbn [fold_left]. rewrite <- IH. f_equal.
  rewrite <- setitem_map. reflexivity.
Qed.

End AnswerProofs.
